(** * wxMaxima MathParser: the tag-driven cell builder

    A shallow embedding of [src/MathParser.cpp] (with the parts of
    [src/Cell.h] it relies on) and the properties of the builder that the
    specification states about it.

    Conventions of the embedding.
    - A [wxString] is the list of its characters (a Unicode build, where
      [wchar_t] holds one code point: [wxUSE_UNICODE] is 1).
    - A C++ [int] is a [Z] wrapped to 32 bits where a conversion happens;
      [size_t] is 64 bits wide.
    - A [wxXmlNode*] is a value of [wxXmlNode]: [NullNode] is the null
      pointer, and a node carries its first child and its next sibling, as
      the wxWidgets class does.
    - A [MathCell*] that heads a sibling chain is the list of the cells of
      the chain ([m_next] order); the null pointer is the empty list.
    - The parser is a state-and-crash monad over the fields of
      [MathParser] and the message boxes shown so far.  [Crash] is a
      dereference of a null pointer. *)

From Stdlib Require Import ZArith NArith List String Ascii Bool Lia.
From Stdlib Require Import DecimalString.
Import ListNotations.

Local Open Scope Z_scope.

(** ** Machine integers *)

Module MachineInt.

Definition INT_MAX : Z := 2147483647.

(** Conversion to a 32-bit [int] (two's complement wrap-around). *)
Definition to_int (z : Z) : Z := (z + 2 ^ 31) mod 2 ^ 32 - 2 ^ 31.

(** Conversion to [size_t], as the usual arithmetic conversions do when an
    [int] meets a [size_t] in a comparison. *)
Definition to_size_t (z : Z) : Z := z mod 2 ^ 64.

End MachineInt.
Export MachineInt.

(** ** wxString *)

Module WxString.

Definition wxUniChar := N.
Definition wxString := list wxUniChar.

(** [wxT("...")] for an ASCII literal. *)
Definition wxT (s : string) : wxString :=
  map N_of_ascii (list_ascii_of_string s).

Definition wxEmptyString : wxString := [].

Fixpoint eqb (a b : wxString) : bool :=
  match a, b with
  | [], [] => true
  | x :: a', y :: b' => N.eqb x y && eqb a' b'
  | _, _ => false
  end.

(** [s == wxT("...")] *)
Definition str_is (s : wxString) (lit : string) : bool := eqb s (wxT lit).

Definition IsEmpty (s : wxString) : bool :=
  match s with [] => true | _ => false end.

(** [Length()], a [size_t]. *)
Definition Length (s : wxString) : Z := Z.of_nat (List.length s).

(** [Left(n)] and [Right(n)]: the first and the last [n] characters; the
    whole string when [n] is not smaller than the length (a negative [int]
    converts to a huge [size_t]). *)
Definition Left (n : Z) (s : wxString) : wxString :=
  if n <? 0 then s else firstn (Z.to_nat n) s.

Definition Right (n : Z) (s : wxString) : wxString :=
  if n <? 0 then s else skipn (List.length s - Z.to_nat n) s.

(** [Replace(old, new)] for one-character patterns: every occurrence. *)
Definition ReplaceChar (old new : wxUniChar) (s : wxString) : wxString :=
  map (fun c => if N.eqb c old then new else c) s.

(** The decimal rendering [printf] gives an [int]. *)
Definition decimal (z : Z) : wxString :=
  wxT (NilZero.string_of_int (Z.to_int z)).

(** [wxString::Format(fmt, n)] for a format with an [%i] directive: the
    first [%i] is replaced by the decimal rendering of [n]. *)
Fixpoint Format_i (fmt : wxString) (n : Z) : wxString :=
  match fmt with
  | [] => []
  | c :: rest =>
      match rest with
      | d :: rest' =>
          if N.eqb c 37 && N.eqb d 105
          then decimal n ++ rest'
          else c :: Format_i rest n
      | [] => [c]
      end
  end.

(** [ToLong(&code)]: an optional sign and decimal digits, nothing else,
    and a value that fits a 64-bit [long]. *)
Definition digit_of (c : wxUniChar) : option Z :=
  if (N.leb 48 c && N.leb c 57)%N then Some (Z.of_N c - 48) else None.

Fixpoint digits (acc : Z) (s : wxString) : option Z :=
  match s with
  | [] => Some acc
  | c :: s' =>
      match digit_of c with
      | Some d => digits (10 * acc + d) s'
      | None => None
      end
  end.

Definition in_long (z : Z) : bool := (- 2 ^ 63 <=? z) && (z <? 2 ^ 63).

Definition ToLong (s : wxString) : option Z :=
  let unsigned (t : wxString) :=
    match t with [] => None | _ => digits 0 t end in
  let r :=
    match s with
    | c :: s' =>
        if N.eqb c 45 then option_map Z.opp (unsigned s')
        else if N.eqb c 43 then unsigned s'
        else unsigned s
    | [] => None
    end in
  match r with
  | Some z => if in_long z then Some z else None
  | None => None
  end.

(** [Format("%c", code)]: the one character with this code. *)
Definition Format_c (code : Z) : wxString := [Z.to_N (code mod 2 ^ 32)].

(** U+2212 MINUS SIGN, U+FFFD REPLACEMENT CHARACTER. *)
Definition minus_sign : wxUniChar := 8722%N.
Definition hyphen_minus : wxUniChar := 45%N.
Definition replacement_char : wxUniChar := 65533%N.

(** The class [[:cntrl:]] of the regular expression in [ParseLine]: the
    C0 controls, DEL and the C1 controls. *)
Definition is_cntrl (c : wxUniChar) : bool :=
  (N.ltb c 32 || (N.leb 127 c && N.ltb c 160))%N.

End WxString.
Export WxString.

(** ** The serialized document: wxXmlNode *)

(** The node types of wxWidgets a document read from a file can hold. *)
Inductive wxXmlNodeType :=
| wxXML_ELEMENT_NODE
| wxXML_TEXT_NODE
| wxXML_CDATA_SECTION_NODE
| wxXML_COMMENT_NODE.

Inductive wxXmlNode : Type :=
| NullNode
| XmlNode (type : wxXmlNodeType) (name content : wxString)
          (attrs : list (wxString * wxString))
          (children next : wxXmlNode).

Module Xml.

Definition GetChildren (n : wxXmlNode) : wxXmlNode :=
  match n with XmlNode _ _ _ _ c _ => c | NullNode => NullNode end.

Definition GetNext (n : wxXmlNode) : wxXmlNode :=
  match n with XmlNode _ _ _ _ _ x => x | NullNode => NullNode end.

Definition GetAttributes (n : wxXmlNode) : list (wxString * wxString) :=
  match n with XmlNode _ _ _ a _ _ => a | NullNode => [] end.

Fixpoint lookup (key : wxString) (l : list (wxString * wxString))
  : option wxString :=
  match l with
  | [] => None
  | (k, v) :: l' => if WxString.eqb k key then Some v else lookup key l'
  end.

(** [GetAttribute(name, &value)]: whether the attribute is there. *)
Definition FindAttribute (n : wxXmlNode) (key : string) : option wxString :=
  lookup (wxT key) (GetAttributes n).

(** [GetAttribute(name, default)]; the default of the default is the empty
    string. *)
Definition GetAttribute (n : wxXmlNode) (key : string) (def : wxString)
  : wxString :=
  match FindAttribute n key with Some v => v | None => def end.

(** [GetNodeContent()]: the content of the first text or CDATA child. *)
Fixpoint first_text (c : wxXmlNode) : wxString :=
  match c with
  | NullNode => wxEmptyString
  | XmlNode wxXML_TEXT_NODE _ content _ _ _
  | XmlNode wxXML_CDATA_SECTION_NODE _ content _ _ _ => content
  | XmlNode _ _ _ _ _ next => first_text next
  end.

Definition GetNodeContent (n : wxXmlNode) : wxString :=
  first_text (GetChildren n).

(** The number of nodes of a sibling chain. *)
Fixpoint siblings (n : wxXmlNode) : nat :=
  match n with
  | NullNode => O
  | XmlNode _ _ _ _ _ next => S (siblings next)
  end.

(** An element and a text node without siblings. *)
Definition attr (key value : string) : wxString * wxString :=
  (wxT key, wxT value).

Definition elem (name : string) (attrs : list (wxString * wxString))
           (children : wxXmlNode) : wxXmlNode :=
  XmlNode wxXML_ELEMENT_NODE (wxT name) wxEmptyString attrs
          children NullNode.

Definition text (content : wxString) : wxXmlNode :=
  XmlNode wxXML_TEXT_NODE (wxT "text") content [] NullNode NullNode.

(** [n] followed by the chain [rest]: sets the next-sibling link of [n]. *)
Definition followed_by (n rest : wxXmlNode) : wxXmlNode :=
  match n with
  | NullNode => rest
  | XmlNode t nm c a ch _ => XmlNode t nm c a ch rest
  end.

End Xml.
Export Xml.

Infix ":>:" := followed_by (at level 60, right associativity).

(** ** The cell data model *)

(** Modelled from the spec: [TextStyle.h] is not among the sources.  These
    are the styles the builder hands out, the "display/style tag drawn
    from a fixed enumeration" of section 3. *)
Inductive TextStyle :=
| TS_DEFAULT | TS_VARIABLE | TS_NUMBER | TS_FUNCTION | TS_SPECIAL_CONSTANT
| TS_GREEK_CONSTANT | TS_STRING | TS_LABEL | TS_USERLABEL | TS_ERROR.

Definition TextStyle_eqb (a b : TextStyle) : bool :=
  match a, b with
  | TS_DEFAULT, TS_DEFAULT | TS_VARIABLE, TS_VARIABLE | TS_NUMBER, TS_NUMBER
  | TS_FUNCTION, TS_FUNCTION | TS_SPECIAL_CONSTANT, TS_SPECIAL_CONSTANT
  | TS_GREEK_CONSTANT, TS_GREEK_CONSTANT | TS_STRING, TS_STRING
  | TS_LABEL, TS_LABEL | TS_USERLABEL, TS_USERLABEL | TS_ERROR, TS_ERROR => true
  | _, _ => false
  end.

(** The cell types of [Cell.h] (an anonymous [enum], so [int]s). *)
Definition MC_TYPE_DEFAULT : Z := 0.
Definition MC_TYPE_MAIN_PROMPT : Z := 1.
Definition MC_TYPE_PROMPT : Z := 2.
Definition MC_TYPE_LABEL : Z := 3.
Definition MC_TYPE_INPUT : Z := 4.
Definition MC_TYPE_ERROR : Z := 5.
Definition MC_TYPE_TEXT : Z := 6.
Definition MC_TYPE_SUBSECTION : Z := 7.
Definition MC_TYPE_SECTION : Z := 8.
Definition MC_TYPE_TITLE : Z := 9.
Definition MC_TYPE_IMAGE : Z := 10.
Definition MC_TYPE_SLIDE : Z := 11.
Definition MC_TYPE_GROUP : Z := 12.
(** [MC_TYPE_SUBSUBSECTION] is used by [ParseEditorTag]; the enumeration of
    [Cell.h] does not list it. *)
Definition MC_TYPE_SUBSUBSECTION : Z := 13.

(** Modelled from the spec: the headers of the cell classes are not among
    the sources.  The styles and block categories are those the builder
    names (section 4.2: choose-style and derivative-style fractions,
    product against sum, definite against indefinite integral; section 3:
    the categories of a GroupBlock). *)
Inductive FracStyle := FC_NORMAL | FC_CHOOSE | FC_DIFF.
Inductive SumStyle := SM_SUM | SM_PROD.
Inductive IntStyle := INT_DEF | INT_IDEF.
Inductive GroupType :=
| GC_TYPE_CODE | GC_TYPE_IMAGE | GC_TYPE_PAGEBREAK | GC_TYPE_TEXT
| GC_TYPE_TITLE | GC_TYPE_SECTION | GC_TYPE_SUBSECTION
| GC_TYPE_SUBSUBSECTION.

Module Cell.

(** The fields of the base class [Cell] the builder writes. *)
Record Base := mkBase {
  m_type : Z;
  m_textStyle : TextStyle;
  m_highlight : bool;
  m_breakLine : bool;
  m_forceBreakLine : bool;
  m_isHidden : bool;
  m_exponentFlag : bool;
  m_altCopyText : wxString
}.

(** Modelled from the spec: the constructor [Cell()] is in [MathCell.cpp],
    not among the sources.  A fresh cell has the default type and style,
    no flag set and no alternate copy text. *)
Definition fresh : Base :=
  mkBase MC_TYPE_DEFAULT TS_DEFAULT false false false false false
         wxEmptyString.

(** Modelled from the spec: [SetType] is declared in [Cell.h] and defined
    in [MathCell.cpp]; it records the type tag. *)
Definition SetType (t : Z) (b : Base) : Base :=
  mkBase t (m_textStyle b) (m_highlight b) (m_breakLine b)
         (m_forceBreakLine b) (m_isHidden b) (m_exponentFlag b)
         (m_altCopyText b).

(** [SetStyle(style) { m_textStyle = style; }] *)
Definition SetStyle (s : TextStyle) (b : Base) : Base :=
  mkBase (m_type b) s (m_highlight b) (m_breakLine b)
         (m_forceBreakLine b) (m_isHidden b) (m_exponentFlag b)
         (m_altCopyText b).

(** [SetHighlight(highlight) { m_highlight = highlight; }] *)
Definition SetHighlight (h : bool) (b : Base) : Base :=
  mkBase (m_type b) (m_textStyle b) h (m_breakLine b)
         (m_forceBreakLine b) (m_isHidden b) (m_exponentFlag b)
         (m_altCopyText b).

(** [ForceBreakLine(force) { m_forceBreakLine = m_breakLine = force; }] *)
Definition ForceBreakLine (force : bool) (b : Base) : Base :=
  mkBase (m_type b) (m_textStyle b) (m_highlight b) force force
         (m_isHidden b) (m_exponentFlag b) (m_altCopyText b).

(** [m_isHidden = h] *)
Definition SetHidden (h : bool) (b : Base) : Base :=
  mkBase (m_type b) (m_textStyle b) (m_highlight b) (m_breakLine b)
         (m_forceBreakLine b) h (m_exponentFlag b) (m_altCopyText b).

(** Modelled from the spec: [SetExponentFlag] is virtual and empty in
    [Cell.h]; the overriding classes are not among the sources.  Section
    4.2: the cell is "flagged is-exponent". *)
Definition SetExponentFlag (b : Base) : Base :=
  mkBase (m_type b) (m_textStyle b) (m_highlight b) (m_breakLine b)
         (m_forceBreakLine b) (m_isHidden b) true (m_altCopyText b).

(** [SetAltCopyText(text) { m_altCopyText = text; }] *)
Definition SetAltCopyText (t : wxString) (b : Base) : Base :=
  mkBase (m_type b) (m_textStyle b) (m_highlight b) (m_breakLine b)
         (m_forceBreakLine b) (m_isHidden b) (m_exponentFlag b) t.

End Cell.

(** Modelled from the spec: the cell classes ([TextCell.h], [FracCell.h],
    ...) are not among the sources.  Section 3: a composite cell owns a
    fixed number of named child slots, each the head of an owned sibling
    chain, which its setters fill; a text cell holds a string payload; a
    matrix holds its cells and flags; a GroupBlock a category, editable
    text, an output chain, a folded subtree and a hidden flag. *)
#[local] Set Warnings "-register-all".
Inductive MathCell : Type :=
| TextCell (b : Cell.Base) (m_text : wxString)
| EditorCell (b : Cell.Base) (m_text : wxString)
| FracCell (b : Cell.Base) (m_fracStyle : FracStyle)
           (m_num m_denom : list MathCell)
| DiffCell (b : Cell.Base) (m_diffCell m_baseCell : list MathCell)
| ExptCell (b : Cell.Base) (m_isMatrix : bool)
           (m_baseCell m_powCell : list MathCell)
| SubSupCell (b : Cell.Base) (m_baseCell m_indexCell m_exptCell : list MathCell)
| SubCell (b : Cell.Base) (m_baseCell m_indexCell : list MathCell)
| AtCell (b : Cell.Base) (m_baseCell m_indexCell : list MathCell)
| FunCell (b : Cell.Base) (m_nameCell m_argCell : list MathCell)
| SqrtCell (b : Cell.Base) (m_innerCell : list MathCell)
| AbsCell (b : Cell.Base) (m_innerCell : list MathCell)
| ConjugateCell (b : Cell.Base) (m_innerCell : list MathCell)
| ParenCell (b : Cell.Base) (m_innerCell : list MathCell) (m_print : bool)
| LimitCell (b : Cell.Base) (m_name m_under m_base : list MathCell)
| SumCell (b : Cell.Base) (m_sumStyle : SumStyle)
          (m_under m_over m_base : list MathCell)
| IntCell (b : Cell.Base) (m_intStyle : IntStyle)
          (m_under m_over m_base m_var : list MathCell)
| MatrCell (b : Cell.Base) (m_specialMatrix m_inferenceMatrix : bool)
           (m_colNames m_rowNames : bool) (m_matHeight m_matWidth : Z)
           (m_cells : list (list MathCell))
| ImgCell (b : Cell.Base) (image : wxString) (remove fromArchive : bool)
          (m_drawRectangle : bool)
| SlideShow (b : Cell.Base) (fromArchive : bool) (m_framerate : option Z)
            (images : list wxString)
| GroupCell (b : Cell.Base) (m_groupType : GroupType)
            (editable : wxString) (m_output m_hiddenTree : list MathCell)
            (m_hide : bool).

(** A [MathCell*]: the chain it heads. *)
Definition Chain := list MathCell.

Module CellOps.

Definition base (c : MathCell) : Cell.Base :=
  match c with
  | TextCell b _ | EditorCell b _ | FracCell b _ _ _ | DiffCell b _ _
  | ExptCell b _ _ _ | SubSupCell b _ _ _ | SubCell b _ _ | AtCell b _ _
  | FunCell b _ _ | SqrtCell b _ | AbsCell b _ | ConjugateCell b _
  | ParenCell b _ _ | LimitCell b _ _ _ | SumCell b _ _ _ _
  | IntCell b _ _ _ _ _ | MatrCell b _ _ _ _ _ _ _ | ImgCell b _ _ _ _
  | SlideShow b _ _ _ | GroupCell b _ _ _ _ _ => b
  end.

Definition on_base (f : Cell.Base -> Cell.Base) (c : MathCell) : MathCell :=
  match c with
  | TextCell b t => TextCell (f b) t
  | EditorCell b t => EditorCell (f b) t
  | FracCell b s n d => FracCell (f b) s n d
  | DiffCell b d e => DiffCell (f b) d e
  | ExptCell b m x p => ExptCell (f b) m x p
  | SubSupCell b x i e => SubSupCell (f b) x i e
  | SubCell b x i => SubCell (f b) x i
  | AtCell b x i => AtCell (f b) x i
  | FunCell b n a => FunCell (f b) n a
  | SqrtCell b i => SqrtCell (f b) i
  | AbsCell b i => AbsCell (f b) i
  | ConjugateCell b i => ConjugateCell (f b) i
  | ParenCell b i p => ParenCell (f b) i p
  | LimitCell b n u x => LimitCell (f b) n u x
  | SumCell b s u o x => SumCell (f b) s u o x
  | IntCell b s u o x v => IntCell (f b) s u o x v
  | MatrCell b s i c r h w l => MatrCell (f b) s i c r h w l
  | ImgCell b n r a d => ImgCell (f b) n r a d
  | SlideShow b a r l => SlideShow (f b) a r l
  | GroupCell b t e o h x => GroupCell (f b) t e o h x
  end.

(** [GetValue()]: [Cell.h] gives the empty string to every cell that does
    not override it.  Modelled from the spec: a text cell and an editor
    cell return the string [SetValue] gave them (section 3: "holds a
    string payload"). *)
Definition GetValue (c : MathCell) : wxString :=
  match c with
  | TextCell _ t | EditorCell _ t => t
  | _ => wxEmptyString
  end.

Definition is_TextCell (c : MathCell) : bool :=
  match c with TextCell _ _ => true | _ => false end.

Definition altCopyText (c : MathCell) : wxString :=
  Cell.m_altCopyText (base c).

(** [new TextCell] and [new TextCell(text)]. *)
Definition new_TextCell : MathCell := TextCell Cell.fresh wxEmptyString.
Definition new_TextCell_of (t : wxString) : MathCell :=
  TextCell Cell.fresh t.

End CellOps.
Export CellOps.

(** ** The collaborators and the parser state *)

(** The configuration store: the two keys the builder reads, absent or
    holding an integer. *)
Record wxConfig := mkConfig {
  displayedDigits : option Z;
  showLength : option Z
}.

(** [config->Read(key, &var)] with [var] an [int]: the stored value, or the
    value [var] had ([m_displayedDigits] is declared in [MathParser.h], not
    among the sources; [left], computed from it, is an [int]). *)
Definition Read (stored : option Z) (var : Z) : Z :=
  match stored with
  | Some v => to_int v
  | None => var
  end.

(** What the builder gets from outside: the configuration, the message
    catalogue behind [_()], and the XML reader ([wxXmlDocument::Load]
    followed by [GetRoot], null when the text is not a document). *)
Record Platform := mkPlatform {
  config : wxConfig;
  translate : wxString -> wxString;
  LoadRoot : wxString -> wxXmlNode
}.

(** The fields of [MathParser], and the message boxes shown so far (the
    latest first). *)
Record ParserState := mkState {
  m_ParserStyle : Z;
  m_FracStyle : FracStyle;
  m_highlight : bool;
  m_displayedDigits : Z;
  m_fileSystem : bool;
  messageBoxes : list wxString
}.

Module State.

Definition set_ParserStyle (v : Z) (s : ParserState) : ParserState :=
  mkState v (m_FracStyle s) (m_highlight s) (m_displayedDigits s)
          (m_fileSystem s) (messageBoxes s).

Definition set_FracStyle (v : FracStyle) (s : ParserState) : ParserState :=
  mkState (m_ParserStyle s) v (m_highlight s) (m_displayedDigits s)
          (m_fileSystem s) (messageBoxes s).

Definition set_highlight (v : bool) (s : ParserState) : ParserState :=
  mkState (m_ParserStyle s) (m_FracStyle s) v (m_displayedDigits s)
          (m_fileSystem s) (messageBoxes s).

Definition set_displayedDigits (v : Z) (s : ParserState) : ParserState :=
  mkState (m_ParserStyle s) (m_FracStyle s) (m_highlight s) v
          (m_fileSystem s) (messageBoxes s).

Definition ShowMessage (msg : wxString) (s : ParserState) : ParserState :=
  mkState (m_ParserStyle s) (m_FracStyle s) (m_highlight s)
          (m_displayedDigits s) (m_fileSystem s) (msg :: messageBoxes s).

(** [MathParser(zipfile)] *)
Definition MathParser (zipfile : wxString) : ParserState :=
  mkState MC_TYPE_DEFAULT FC_NORMAL false 0
          (negb (IsEmpty zipfile)) [].

End State.

(** ** The parser monad *)

Inductive Outcome (A : Type) : Type :=
| Ok (a : A)
| Crash.
Arguments Ok {A} a.
Arguments Crash {A}.

Definition M (A : Type) : Type := ParserState -> Outcome A * ParserState.

Definition ret {A} (a : A) : M A := fun s => (Ok a, s).

Definition bind {A B} (c : M A) (k : A -> M B) : M B :=
  fun s =>
    match c s with
    | (Ok a, s') => k a s'
    | (Crash, s') => (Crash, s')
    end.

Definition crash {A} : M A := fun s => (Crash, s).
Definition get : M ParserState := fun s => (Ok s, s).
Definition modify (f : ParserState -> ParserState) : M unit :=
  fun s => (Ok tt, f s).

(** [wxMessageBox(msg, ...)] *)
Definition wxMessageBox (msg : wxString) : M unit :=
  modify (State.ShowMessage msg).

Declare Scope parser_scope.
Delimit Scope parser_scope with parser.
Notation "x <- c ;; k" := (bind c (fun x => k))
  (at level 61, c at next level, right associativity) : parser_scope.
Notation "c ;;; k" := (bind c (fun _ => k))
  (at level 61, right associativity) : parser_scope.
Local Open Scope parser_scope.

(** The number of message boxes a run has shown. *)
Definition shown {A} (r : Outcome A * ParserState) : nat :=
  List.length (messageBoxes (snd r)).

(** ** The leaves: ParseText, ParseCharCode, ParseEditorTag *)

Section Leaves.

Variable P : Platform.

Definition digits_marker : wxString := wxT "[%i digits]".

(** Lines 405-420 of [ParseText]: the cutoff, then the string shown. *)
Definition digit_cutoff : Z :=
  let d := Read (displayedDigits (config P)) 100 in
  if d <? 10 then 10 else d.

Definition truncate_number (str : wxString) : wxString :=
  let m := digit_cutoff in
  if to_size_t m <? Length str then
    let left := Z.quot m 3 in
    let left := if 30 <? left then 30 else left in
    Left left str
      ++ Format_i (translate P digits_marker)
                  (to_int (to_int (Length str) - 2 * left))
      ++ Right left str
  else str.

(** [ParseText(node, style)]; [node] is the first child of the tag, or
    null.  The callers that leave [style] out get [TS_DEFAULT] (the
    default is declared in [MathParser.h]). *)
Definition ParseText (node : wxXmlNode) (style : TextStyle) : M Chain :=
  let str :=
    match node with
    | NullNode => wxEmptyString
    | XmlNode _ _ content _ _ _ => content
    end in
  if IsEmpty str then ret [new_TextCell]
  else
    let str := ReplaceChar hyphen_minus minus_sign str in
    str <- (match style with
            | TS_NUMBER =>
                modify (State.set_displayedDigits digit_cutoff) ;;;
                ret (truncate_number str)
            | _ => ret str
            end) ;;
    s <- get ;;
    let b := Cell.fresh in
    let b := match style with
             | TS_ERROR => Cell.SetType MC_TYPE_ERROR b
             | _ => Cell.SetType (m_ParserStyle s) b
             end in
    let b := Cell.SetStyle style b in
    let b := Cell.SetHighlight (m_highlight s) b in
    ret [TextCell b str].

(** [ParseCharCode(node, style)] *)
Definition ParseCharCode (node : wxXmlNode) (style : TextStyle) : M Chain :=
  let str :=
    match node with
    | NullNode => wxEmptyString
    | XmlNode _ _ content _ _ _ => content
    end in
  if IsEmpty str then ret [new_TextCell]
  else
    let str := match ToLong str with
               | Some code => Format_c code
               | None => str
               end in
    s <- get ;;
    let b := Cell.fresh in
    let b := Cell.SetType (m_ParserStyle s) b in
    let b := Cell.SetStyle style b in
    let b := Cell.SetHighlight (m_highlight s) b in
    ret [TextCell b str].

(** The [while (line)] loop of [ParseEditorTag]. *)
Fixpoint editor_lines (line : wxXmlNode) (text : wxString) : wxString :=
  match line with
  | NullNode => text
  | XmlNode _ name _ _ _ next =>
      let text :=
        if str_is name "line" then
          (if IsEmpty text then text else text ++ [10%N])
            ++ GetNodeContent line
        else text in
      editor_lines next text
  end.

Definition ParseEditorTag (node : wxXmlNode) : M Chain :=
  let type := GetAttribute node "type" (wxT "input") in
  let b := Cell.fresh in
  let b :=
    if str_is type "input" then Cell.SetType MC_TYPE_INPUT b
    else if str_is type "text" then Cell.SetType MC_TYPE_TEXT b
    else if str_is type "title" then Cell.SetType MC_TYPE_TITLE b
    else if str_is type "section" then Cell.SetType MC_TYPE_SECTION b
    else if str_is type "subsection" then Cell.SetType MC_TYPE_SUBSECTION b
    else if str_is type "subsubsection" then Cell.SetType MC_TYPE_SUBSUBSECTION b
    else b in
  ret [EditorCell b (editor_lines (GetChildren node) wxEmptyString)].

End Leaves.

(** ** The composite handlers

    The handlers and [ParseTag] call each other.  Here they take the
    parser they call back, [ParseTag], as a variable; the knot is tied
    below.  Each follows its C++ body: [child] walks the children of
    [node], and a missing child ends in [delete cell; return NULL]. *)

Section Handlers.

Variable P : Platform.
Variable ParseTag : wxXmlNode -> bool -> M Chain.

(** [SetType(m_ParserStyle)], [SetStyle(TS_VARIABLE)] on a cell that got
    [SetHighlight(h)] or not. *)
Definition composite_base (h : bool) (s : ParserState) : Cell.Base :=
  Cell.SetType (m_ParserStyle s)
    (Cell.SetStyle TS_VARIABLE (Cell.SetHighlight h Cell.fresh)).

(** [p->SetExponentFlag()], a virtual call through [p]. *)
Definition SetExponentFlag (p : Chain) : M Chain :=
  match p with
  | [] => crash
  | c :: rest => ret (on_base Cell.SetExponentFlag c :: rest)
  end.

Definition ParseFracTag (node : wxXmlNode) : M Chain :=
  s0 <- get ;;
  match node with
  | NullNode => crash
  | XmlNode _ _ _ _ child _ =>
      match child with
      | NullNode => ret []
      | XmlNode _ _ _ _ _ child2 =>
          num <- ParseTag child false ;;
          match child2 with
          | NullNode => ret []
          | XmlNode _ _ _ _ _ _ =>
              denom <- ParseTag child2 false ;;
              s <- get ;;
              let fs := m_FracStyle s0 in
              let fs :=
                if str_is (GetAttribute node "line" wxEmptyString) "no"
                then FC_CHOOSE else fs in
              let fs :=
                if str_is (GetAttribute node "diffstyle" wxEmptyString) "yes"
                then FC_DIFF else fs in
              ret [FracCell (composite_base (m_highlight s0) s) fs num denom]
          end
      end
  end.

Definition ParseDiffTag (node : wxXmlNode) : M Chain :=
  match node with
  | NullNode => crash
  | XmlNode _ _ _ _ child _ =>
      match child with
      | NullNode => ret []
      | XmlNode _ _ _ _ _ child2 =>
          s0 <- get ;;
          modify (State.set_FracStyle FC_DIFF) ;;;
          diff <- ParseTag child false ;;
          modify (State.set_FracStyle (m_FracStyle s0)) ;;;
          match child2 with
          | NullNode => ret []
          | XmlNode _ _ _ _ _ _ =>
              base <- ParseTag child2 true ;;
              s <- get ;;
              ret [DiffCell (composite_base false s) diff base]
          end
      end
  end.

Definition ParseSupTag (node : wxXmlNode) : M Chain :=
  match node with
  | NullNode => crash
  | XmlNode _ _ _ attrs child _ =>
      let isMatrix := match attrs with [] => false | _ => true end in
      match child with
      | NullNode => ret []
      | XmlNode _ _ _ _ _ child2 =>
          base <- ParseTag child false ;;
          match child2 with
          | NullNode => ret []
          | XmlNode _ _ _ _ _ _ =>
              power <- ParseTag child2 false ;;
              power <- SetExponentFlag power ;;
              s <- get ;;
              ret [ExptCell (composite_base false s) isMatrix base power]
          end
      end
  end.

Definition ParseSubSupTag (node : wxXmlNode) : M Chain :=
  match node with
  | NullNode => crash
  | XmlNode _ _ _ _ child _ =>
      match child with
      | NullNode => ret []
      | XmlNode _ _ _ _ _ child2 =>
          base <- ParseTag child false ;;
          match child2 with
          | NullNode => ret []
          | XmlNode _ _ _ _ _ child3 =>
              index <- ParseTag child2 false ;;
              index <- SetExponentFlag index ;;
              match child3 with
              | NullNode => ret []
              | XmlNode _ _ _ _ _ _ =>
                  power <- ParseTag child3 false ;;
                  power <- SetExponentFlag power ;;
                  s <- get ;;
                  ret [SubSupCell (composite_base false s) base index power]
              end
          end
      end
  end.

Definition ParseSubTag (node : wxXmlNode) : M Chain :=
  match node with
  | NullNode => crash
  | XmlNode _ _ _ _ child _ =>
      match child with
      | NullNode => ret []
      | XmlNode _ _ _ _ _ child2 =>
          base <- ParseTag child false ;;
          match child2 with
          | NullNode => ret []
          | XmlNode _ _ _ _ _ _ =>
              index <- ParseTag child2 false ;;
              index <- SetExponentFlag index ;;
              s <- get ;;
              ret [SubCell (composite_base false s) base index]
          end
      end
  end.

Definition ParseAtTag (node : wxXmlNode) : M Chain :=
  match node with
  | NullNode => crash
  | XmlNode _ _ _ _ child _ =>
      match child with
      | NullNode => ret []
      | XmlNode _ _ _ _ _ child2 =>
          base <- ParseTag child false ;;
          s0 <- get ;;
          match child2 with
          | NullNode => ret []
          | XmlNode _ _ _ _ _ _ =>
              index <- ParseTag child2 false ;;
              s <- get ;;
              ret [AtCell (composite_base (m_highlight s0) s) base index]
          end
      end
  end.

Definition ParseFunTag (node : wxXmlNode) : M Chain :=
  match node with
  | NullNode => crash
  | XmlNode _ _ _ _ child _ =>
      match child with
      | NullNode => ret []
      | XmlNode _ _ _ _ _ child2 =>
          name <- ParseTag child false ;;
          match child2 with
          | NullNode => ret []
          | XmlNode _ _ _ _ _ _ =>
              s <- get ;;
              arg <- ParseTag child2 false ;;
              ret [FunCell (composite_base false s) name arg]
          end
      end
  end.

Definition ParseSqrtTag (node : wxXmlNode) : M Chain :=
  match node with
  | NullNode => crash
  | XmlNode _ _ _ _ child _ =>
      inner <- ParseTag child true ;;
      s <- get ;;
      ret [SqrtCell (composite_base (m_highlight s) s) inner]
  end.

Definition ParseAbsTag (node : wxXmlNode) : M Chain :=
  match node with
  | NullNode => crash
  | XmlNode _ _ _ _ child _ =>
      inner <- ParseTag child true ;;
      s <- get ;;
      ret [AbsCell (composite_base (m_highlight s) s) inner]
  end.

Definition ParseConjugateTag (node : wxXmlNode) : M Chain :=
  match node with
  | NullNode => crash
  | XmlNode _ _ _ _ child _ =>
      inner <- ParseTag child true ;;
      s <- get ;;
      ret [ConjugateCell (composite_base (m_highlight s) s) inner]
  end.

Definition ParseParenTag (node : wxXmlNode) : M Chain :=
  match node with
  | NullNode => crash
  | XmlNode _ _ _ attrs child _ =>
      inner <- ParseTag child true ;;
      s <- get ;;
      ret [ParenCell (composite_base (m_highlight s) s) inner
                     (match attrs with [] => true | _ => false end)]
  end.

Definition ParseLimitTag (node : wxXmlNode) : M Chain :=
  match node with
  | NullNode => crash
  | XmlNode _ _ _ _ child _ =>
      match child with
      | NullNode => ret []
      | XmlNode _ _ _ _ _ child2 =>
          name <- ParseTag child false ;;
          match child2 with
          | NullNode => ret []
          | XmlNode _ _ _ _ _ child3 =>
              under <- ParseTag child2 false ;;
              match child3 with
              | NullNode => ret []
              | XmlNode _ _ _ _ _ _ =>
                  base <- ParseTag child3 false ;;
                  s <- get ;;
                  ret [LimitCell (composite_base false s) name under base]
              end
          end
      end
  end.

Definition ParseSumTag (node : wxXmlNode) : M Chain :=
  let type := GetAttribute node "type" (wxT "sum") in
  let style := if str_is type "prod" then SM_PROD else SM_SUM in
  s0 <- get ;;
  match node with
  | NullNode => crash
  | XmlNode _ _ _ _ child _ =>
      match child with
      | NullNode => ret []
      | XmlNode _ _ _ _ _ child2 =>
          under <- ParseTag child false ;;
          match child2 with
          | NullNode => ret []
          | XmlNode _ _ _ _ _ child3 =>
              over <- (if str_is type "lsum" then ret []
                       else ParseTag child2 false) ;;
              match child3 with
              | NullNode => ret []
              | XmlNode _ _ _ _ _ _ =>
                  base <- ParseTag child3 false ;;
                  s <- get ;;
                  ret [SumCell (composite_base (m_highlight s0) s) style
                               under over base]
              end
          end
      end
  end.

Definition ParseIntTag (node : wxXmlNode) : M Chain :=
  s0 <- get ;;
  match node with
  | NullNode => crash
  | XmlNode _ _ _ [] child _ =>
      match child with
      | NullNode => ret []
      | XmlNode _ _ _ _ _ child2 =>
          under <- ParseTag child false ;;
          match child2 with
          | NullNode => ret []
          | XmlNode _ _ _ _ _ child3 =>
              over <- ParseTag child2 false ;;
              match child3 with
              | NullNode => ret []
              | XmlNode _ _ _ _ _ child4 =>
                  base <- ParseTag child3 false ;;
                  match child4 with
                  | NullNode => ret []
                  | XmlNode _ _ _ _ _ _ =>
                      var <- ParseTag child4 true ;;
                      s <- get ;;
                      ret [IntCell (composite_base (m_highlight s0) s)
                                   INT_DEF under over base var]
                  end
              end
          end
      end
  | XmlNode _ _ _ (_ :: _) child _ =>
      match child with
      | NullNode => ret []
      | XmlNode _ _ _ _ _ child2 =>
          base <- ParseTag child false ;;
          match child2 with
          | NullNode => ret []
          | XmlNode _ _ _ _ _ _ =>
              var <- ParseTag child2 true ;;
              s <- get ;;
              ret [IntCell (composite_base (m_highlight s0) s)
                           INT_IDEF [] [] base var]
          end
      end
  end.

(** The two loops of [ParseTableTag]: the cells of the table in row
    order, and how often [NewColumn] ran. *)
Fixpoint table_cells (cells : wxXmlNode) (acc : list Chain)
  : M (list Chain) :=
  match cells with
  | NullNode => ret acc
  | XmlNode _ _ _ _ _ next =>
      c <- ParseTag cells false ;;
      table_cells next (acc ++ [c])
  end.

Fixpoint table_rows (rows : wxXmlNode) (height : Z) (acc : list Chain)
  : M (Z * list Chain) :=
  match rows with
  | NullNode => ret (height, acc)
  | XmlNode _ _ _ _ cells next =>
      acc <- table_cells cells acc ;;
      table_rows next (height + 1) acc
  end.

(** [node->GetAttribute(key, wxT("false")) == wxT("true")] *)
Definition flag_attribute (node : wxXmlNode) (key : string) : bool :=
  str_is (GetAttribute node key (wxT "false")) "true".

Definition ParseTableTag (node : wxXmlNode) : M Chain :=
  s0 <- get ;;
  match node with
  | NullNode => crash
  | XmlNode _ _ _ _ rows _ =>
      r <- table_rows rows 0 [] ;;
      s <- get ;;
      let height := fst r in
      let columns := Z.of_nat (List.length (snd r)) in
      (* SetDimension: the width is the count of columns per row *)
      let width := if height =? 0 then columns else Z.quot columns height in
      ret [MatrCell (composite_base (m_highlight s0) s)
                    (flag_attribute node "special" || flag_attribute node "inference") (flag_attribute node "inference")
                    (flag_attribute node "colnames") (flag_attribute node "rownames")
                    height width (snd r)]
  end.

End Handlers.

(** ** Document blocks: ParseCellTag *)

Module Group.

(** Modelled from the spec: [GroupCell.h] is not among the sources.
    Section 3: a GroupBlock holds a block category, editable source text,
    an owned output sequence, a hidden flag and an owned folded subtree;
    section 4.3: output children are appended to the output chain, and
    the fold operation attaches the folded cells. *)
Record Block := mkBlock {
  editable : wxString;
  output : Chain;
  hiddenTree : Chain
}.

Definition empty : Block := mkBlock wxEmptyString [] [].

Definition SetEditableContent (t : wxString) (g : Block) : Block :=
  mkBlock t (output g) (hiddenTree g).

(** [AppendOutput(cell)]: the chain joins the output chain. *)
Definition AppendOutput (c : Chain) (g : Block) : Block :=
  mkBlock (editable g) (output g ++ c) (hiddenTree g).

(** [HideTree(tree)]: the chain becomes the folded subtree of a block
    that has none. *)
Definition HideTree (tree : Chain) (g : Block) : Block :=
  match hiddenTree g with
  | [] => mkBlock (editable g) (output g) tree
  | _ => g
  end.

Definition build (t : GroupType) (hide : bool) (g : Block) : MathCell :=
  GroupCell Cell.fresh t (editable g) (output g) (hiddenTree g) hide.

Definition groupType (c : MathCell) : option GroupType :=
  match c with
  | GroupCell _ t _ _ _ _ => Some t
  | _ => None
  end.

End Group.

Section CellTag.

Variable P : Platform.
Variable ParseTag : wxXmlNode -> bool -> M Chain.

(** [p->GetValue()], a virtual call through [p]. *)
Definition GetValueOf (p : Chain) : M wxString :=
  match p with
  | [] => crash
  | c :: _ => ret (GetValue c)
  end.

(** The children of a [code] cell. *)
Fixpoint code_children (children : wxXmlNode) (g : Group.Block)
  : M Group.Block :=
  match children with
  | NullNode => ret g
  | XmlNode _ name _ _ inner next =>
      g <- (if str_is name "input" then
              editor <- ParseTag inner true ;;
              v <- GetValueOf editor ;;
              ret (Group.SetEditableContent v g)
            else ret g) ;;
      g <- (if str_is name "output" then
              tag <- ParseTag inner true ;;
              ret (Group.AppendOutput tag g)
            else ret g) ;;
      code_children next g
  end.

(** The children of an [image] cell. *)
Fixpoint image_children (children : wxXmlNode) (g : Group.Block)
  : M Group.Block :=
  match children with
  | NullNode => ret g
  | XmlNode _ name _ _ _ next =>
      g <- (if str_is name "editor" then
              ed <- ParseEditorTag children ;;
              v <- GetValueOf ed ;;
              ret (Group.SetEditableContent v g)
            else
              out <- ParseTag children true ;;
              ret (Group.AppendOutput out g)) ;;
      image_children next g
  end.

(** The [while (xmlcells->GetNext())] loop under a [fold] child.  [last]
    is the chain from the cell [last] points to, [before] the cells of
    [tree] in front of it. *)
Fixpoint fold_cells (xmlcells : wxXmlNode) (before last : Chain)
  : M Chain :=
  match xmlcells with
  | NullNode => ret (before ++ last)
  | XmlNode _ _ _ _ _ next =>
      cell <- ParseTag xmlcells false ;;
      match last, cell with
      | l :: _, _ :: _ => fold_cells next (before ++ [l]) cell
      | _, _ => crash
      end
  end.

(** The children of a title, section, subsection or subsubsection. *)
Fixpoint heading_children (children : wxXmlNode) (g : Group.Block)
  : M Group.Block :=
  match children with
  | NullNode => ret g
  | XmlNode _ name _ _ xmlcells next =>
      g <- (if str_is name "editor" then
              ed <- ParseEditorTag children ;;
              v <- GetValueOf ed ;;
              ret (Group.SetEditableContent v g)
            else if str_is name "fold" then
              match xmlcells with
              | NullNode => ret g
              | XmlNode _ _ _ _ _ xmlnext =>
                  first <- ParseTag xmlcells false ;;
                  tree <- fold_cells xmlnext [] first ;;
                  ret (match tree with
                       | [] => g
                       | _ => Group.HideTree tree g
                       end)
              end
            else ret g) ;;
      heading_children next g
  end.

Definition ParseCellTag (node : wxXmlNode) : M Chain :=
  let hide := str_is (GetAttribute node "hide" (wxT "false")) "true" in
  let type := GetAttribute node "type" (wxT "text") in
  let sectioning_level := GetAttribute node "sectioning_level" (wxT "0") in
  match node with
  | NullNode => crash
  | XmlNode _ _ _ _ children _ =>
      if str_is type "code" then
        g <- code_children children Group.empty ;;
        ret [Group.build GC_TYPE_CODE hide g]
      else if str_is type "image" then
        g <- image_children children Group.empty ;;
        ret [Group.build GC_TYPE_IMAGE hide g]
      else if str_is type "pagebreak" then
        ret [Group.build GC_TYPE_PAGEBREAK hide Group.empty]
      else if str_is type "text" then
        editor <- ParseTag children true ;;
        v <- GetValueOf editor ;;
        ret [Group.build GC_TYPE_TEXT hide
                         (Group.SetEditableContent v Group.empty)]
      else
        let group :=
          if str_is type "title" then Some GC_TYPE_TITLE
          else if str_is type "section" then Some GC_TYPE_SECTION
          else if str_is type "subsection" then
            if negb (str_is sectioning_level "4")
            then Some GC_TYPE_SUBSECTION
            else Some GC_TYPE_SUBSUBSECTION
          else if str_is type "subsubsection" then Some GC_TYPE_SUBSUBSECTION
          else None in
        match group with
        | None => ret []
        | Some t =>
            g <- heading_children children Group.empty ;;
            ret [Group.build t hide g]
        end
  end.

End CellTag.

(** ** The tag dispatch of ParseTag *)

Section Dispatch.

Variable P : Platform.
Variable ParseTag : wxXmlNode -> bool -> M Chain.

(** [wxStringTokenizer tokens(str, wxT(";"))], the tokens of positive
    length. *)
Fixpoint tokens (str : wxString) (cur : wxString) : list wxString :=
  let close := match cur with [] => [] | _ => [cur] end in
  match str with
  | [] => close
  | c :: str' =>
      if N.eqb c 59 then close ++ tokens str' []
      else tokens str' (cur ++ [c])
  end.

(** [p->ForceBreakLine(true)] and [p->m_isHidden = true] on the cell [p]
    points to. *)
Definition on_head (f : Cell.Base -> Cell.Base) (p : Chain) : Chain :=
  match p with
  | [] => []
  | c :: rest => on_base f c :: rest
  end.

(** What the [if]-chain on the tag name yields for one node: the chain
    that is then assigned to [cell] or appended to it. *)
Definition ParseNode (node : wxXmlNode) : M Chain :=
  match node with
  | NullNode => crash
  | XmlNode wxXML_ELEMENT_NODE tagName _ _ children _ =>
      if str_is tagName "v" then ParseText P children TS_VARIABLE
      else if str_is tagName "t" then
        ParseText P children
          (if str_is (GetAttribute node "type" wxEmptyString) "error"
           then TS_ERROR else TS_DEFAULT)
      else if str_is tagName "n" then ParseText P children TS_NUMBER
      else if str_is tagName "h" then
        tmp <- ParseText P children TS_DEFAULT ;;
        ret (on_head (Cell.SetHidden true) tmp)
      else if str_is tagName "p" then ParseParenTag ParseTag node
      else if str_is tagName "f" then ParseFracTag ParseTag node
      else if str_is tagName "e" then ParseSupTag ParseTag node
      else if str_is tagName "i" then ParseSubTag ParseTag node
      else if str_is tagName "fn" then ParseFunTag ParseTag node
      else if str_is tagName "g" then
        ParseText P children TS_GREEK_CONSTANT
      else if str_is tagName "s" then
        ParseText P children TS_SPECIAL_CONSTANT
      else if str_is tagName "fnm" then ParseText P children TS_FUNCTION
      else if str_is tagName "q" then ParseSqrtTag ParseTag node
      else if str_is tagName "d" then ParseDiffTag ParseTag node
      else if str_is tagName "sm" then ParseSumTag ParseTag node
      else if str_is tagName "in" then ParseIntTag ParseTag node
      else if str_is tagName "mspace" then ret [new_TextCell_of (wxT " ")]
      else if str_is tagName "at" then ParseAtTag ParseTag node
      else if str_is tagName "a" then ParseAbsTag ParseTag node
      else if str_is tagName "cj" then ParseConjugateTag ParseTag node
      else if str_is tagName "ie" then ParseSubSupTag ParseTag node
      else if str_is tagName "lm" then ParseLimitTag ParseTag node
      else if str_is tagName "r" then ParseTag children true
      else if str_is tagName "tb" then ParseTableTag ParseTag node
      else if str_is tagName "mth" || str_is tagName "line" then
        tmp <- ParseTag children true ;;
        ret (match tmp with
             | [] => [new_TextCell_of (wxT " ")]
             | _ => on_head (Cell.ForceBreakLine true) tmp
             end)
      else if str_is tagName "lbl" then
        tmp <- ParseText P children
                 (if negb (str_is (GetAttribute node "userdefined" (wxT "no"))
                                  "yes")
                  then TS_LABEL else TS_USERLABEL) ;;
        ret (on_head (Cell.ForceBreakLine true) tmp)
      else if str_is tagName "st" then ParseText P children TS_STRING
      else if str_is tagName "hl" then
        s <- get ;;
        modify (State.set_highlight true) ;;;
        tmp <- ParseTag children true ;;
        modify (State.set_highlight (m_highlight s)) ;;;
        ret tmp
      else if str_is tagName "img" then
        match children with
        | NullNode => crash
        | XmlNode _ _ filename _ _ _ =>
            s <- get ;;
            let remove :=
              if m_fileSystem s then false
              else negb (str_is (GetAttribute node "del" (wxT "yes")) "no") in
            let rect :=
              negb (str_is (GetAttribute node "rect" (wxT "true")) "false") in
            ret [ImgCell Cell.fresh filename remove (m_fileSystem s) rect]
        end
      else if str_is tagName "slide" then
        match children with
        | NullNode => crash
        | XmlNode _ _ str _ _ _ =>
            s <- get ;;
            let fr := match FindAttribute node "fr" with
                      | Some framerate => ToLong framerate
                      | None => None
                      end in
            ret [SlideShow Cell.fresh (m_fileSystem s) fr (tokens str [])]
        end
      else if str_is tagName "editor" then ParseEditorTag node
      else if str_is tagName "cell" then ParseCellTag ParseTag node
      else if str_is tagName "ascii" then ParseCharCode children TS_DEFAULT
      else
        match children with
        | NullNode => ret []
        | XmlNode _ _ _ _ _ _ => ParseTag children true
        end
  | XmlNode _ _ _ _ _ _ => ParseText P node TS_DEFAULT
  end.

End Dispatch.

(** ** The sibling loop of ParseTag *)

(** Where [cell] points: nowhere, at a cell of the chain [tmp] heads, or at
    the head of a chain that [tmp] does not reach. *)
Inductive CellPtr : Type :=
| PNull
| PIn (i : nat)
| POut (c : MathCell) (rest : Chain).

(** The locals of [ParseTag]. *)
Record Locals := mkLocals {
  tmp : Chain;
  cell : CellPtr;
  warning : bool
}.

Module Loop.

Definition start (all : bool) : Locals := mkLocals [] PNull all.

(** The chain from the cell [cell] points to. *)
Definition chain_at (l : Locals) : Chain :=
  match cell l with
  | PNull => []
  | PIn i => skipn i (tmp l)
  | POut c rest => c :: rest
  end.

(** [if (cell == NULL) cell = p; else cell->AppendCell(p);]
    Modelled from the spec: [AppendCell] is in [MathCell.cpp], not among
    the sources.  Section 4.2: the result is "an appended continuation of
    the current chain"; [p] goes behind the last cell of the chain of
    [cell], and a null [p] leaves the chain as it is. *)
Definition attach (p : Chain) (l : Locals) : Locals :=
  match cell l with
  | PNull =>
      mkLocals (tmp l)
               (match p with [] => PNull | c :: rest => POut c rest end)
               (warning l)
  | PIn i => mkLocals (tmp l ++ p) (PIn i) (warning l)
  | POut c rest => mkLocals (tmp l) (POut c (rest ++ p)) (warning l)
  end.

(** [if (tmp != NULL) return tmp; return cell;] *)
Definition result (l : Locals) : Chain :=
  match tmp l with
  | [] => chain_at l
  | t => t
  end.

(** [cell = cell->m_next] *)
Definition next_cell (l : Locals) : CellPtr :=
  match cell l with
  | PNull => PNull
  | PIn i => if Nat.ltb (S i) (List.length (tmp l)) then PIn (S i) else PNull
  | POut _ [] => PNull
  | POut _ (c :: rest) => POut c rest
  end.

Definition unknown_tag_message : wxString :=
  wxT "Parts of the document will not be loaded correctly!"
    ++ [10%N] ++ wxT "Found unknown XML Tag name ".

Fixpoint set_nth (i : nat) (f : MathCell -> MathCell) (c : Chain) : Chain :=
  match c, i with
  | [], _ => []
  | x :: c', O => f x :: c'
  | x :: c', S i' => x :: set_nth i' f c'
  end.

(** [cell->SetAltCopyText(altCopy)] *)
Definition SetAltCopyText (altCopy : wxString) (l : Locals) : M Locals :=
  let f := on_base (Cell.SetAltCopyText altCopy) in
  match cell l with
  | PNull => crash
  | PIn i => ret (mkLocals (set_nth i f (tmp l)) (PIn i) (warning l))
  | POut c rest => ret (mkLocals (tmp l) (POut (f c) rest) (warning l))
  end.

End Loop.

Section SiblingLoop.

Variable P : Platform.

(** What one node yields: [ParseNode] once the knot is tied. *)
Variable dispatch : wxXmlNode -> M Chain.

(** Lines 971-988: the bookkeeping behind [if (!all) break;]. *)
Definition bookkeeping (node : wxXmlNode) (l : Locals) : M Locals :=
  l <- (match cell l with
        | PNull =>
            if warning l then
              wxMessageBox (translate P Loop.unknown_tag_message) ;;;
              ret (mkLocals (tmp l) PNull false)
            else ret l
        | _ =>
            match tmp l with
            | [] => ret (mkLocals (Loop.chain_at l) (PIn 0) (warning l))
            | _ => ret (mkLocals (tmp l) (Loop.next_cell l) (warning l))
            end
        end) ;;
  match FindAttribute node "altCopy" with
  | Some altCopy => Loop.SetAltCopyText altCopy l
  | None => ret l
  end.

(** [while (node) { ...; if (!all) break; ...; node = node->GetNext(); }] *)
Fixpoint sibling_loop (node : wxXmlNode) (all : bool) (l : Locals)
  : M Chain :=
  match node with
  | NullNode => ret (Loop.result l)
  | XmlNode _ _ _ _ _ next =>
      p <- dispatch node ;;
      let l := Loop.attach p l in
      if negb all then ret (Loop.result l)
      else
        l <- bookkeeping node l ;;
        sibling_loop next all l
  end.

End SiblingLoop.

(** ** ParseTag and ParseLine *)

Section Parser.

Variable P : Platform.

(** [ParseTag(node, all)].  Modelled from the spec: the default of [all]
    is declared in [MathParser.h], not among the sources; a call without
    it parses the node and its following siblings (section 4.2: the line
    wrapper, the highlight wrapper and the unknown tags pass the chain of
    their recursively parsed children through), so [all] is [true]
    there. *)
Fixpoint ParseTag (node : wxXmlNode) (all : bool) {struct node} : M Chain :=
  sibling_loop P (ParseNode P ParseTag) node all (Loop.start all).

Definition too_long_message : wxString :=
  wxT " << Expression too long to display! >>".

(** The [switch] on the configured selector. *)
Definition length_cutoff : Z :=
  let showLength := Read (showLength (config P)) 0 in
  if showLength =? 0 then 50000
  else if showLength =? 1 then 500000
  else if showLength =? 2 then 5000000
  else if showLength =? 3 then 0
  else showLength.

(** The value of the assignment expression [(showLength=0)], as a
    condition. *)
Definition assigned_zero : bool := negb (0 =? 0).

Definition ParseLine (s : wxString) (style : Z) : M Chain :=
  modify (State.set_ParserStyle style) ;;;
  modify (State.set_FracStyle FC_NORMAL) ;;;
  modify (State.set_highlight false) ;;;
  let s := map (fun c => if is_cntrl c then replacement_char else c) s in
  if (Length s <? to_size_t length_cutoff) || assigned_zero then
    match LoadRoot P s with
    | NullNode => ret []
    | XmlNode _ _ _ _ children _ => ParseTag children true
    end
  else
    ret [on_base (Cell.ForceBreakLine true)
                 (new_TextCell_of (translate P too_long_message))].

End Parser.

(** ** Sample inputs *)

Module Samples.

(** A platform without message catalogue ([_()] gives back its
    argument) whose XML reader knows no document. *)
Definition platform (digits length : option Z) : Platform :=
  mkPlatform (mkConfig digits length) (fun msg => msg) (fun _ => NullNode).

Definition fresh_parser : ParserState := State.MathParser wxEmptyString.

(** 50,001 digits [0]. *)
Definition zeros : wxString := repeat 48%N (Z.to_nat 50001).

(** [<n>digits</n>] *)
Definition number (digits : string) : wxXmlNode :=
  elem "n" [] (text (wxT digits)).

(** [<f><n>2</n></f>]: a fraction without denominator. *)
Definition half_fraction : wxXmlNode := elem "f" [] (number "2").

(** [<x/><q><x/></q>]: a tag the builder does not know, and a square
    root around one ([ParseSqrtTag] calls [ParseTag(child, true)]). *)
Definition unknown_then_root : wxXmlNode :=
  elem "x" [] NullNode :>: elem "q" [] (elem "x" [] NullNode).

(** [<x/><f/><y/>]: three nodes in a row that yield no cell. *)
Definition three_failures : wxXmlNode :=
  elem "x" [] NullNode :>: elem "f" [] NullNode :>: elem "y" [] NullNode.

(** [<n altCopy="x">1</n>] *)
Definition number_with_altCopy : wxXmlNode :=
  elem "n" [attr "altCopy" "x"] (text (wxT "1")).

(** [<r><n>1</n><n>2</n></r><n altCopy="x">3</n>] *)
Definition row_then_altCopy : wxXmlNode :=
  elem "r" [] (number "1" :>: number "2")
    :>: elem "n" [attr "altCopy" "x"] (text (wxT "3")).

(** [<f altCopy="x"><n>2</n></f><n>3</n>] *)
Definition half_fraction_with_altCopy : wxXmlNode :=
  elem "f" [attr "altCopy" "x"] (number "2") :>: number "3".

(** The value and the alternate copy text of each cell of a result. *)
Definition texts (r : Outcome Chain) : option (list (wxString * wxString)) :=
  match r with
  | Ok c => Some (map (fun x => (GetValue x, altCopyText x)) c)
  | Crash => None
  end.

(** [<cell type="subsection" sectioning_level="4"><editor/></cell>] *)
Definition subsubsection_cell : wxXmlNode :=
  elem "cell" [attr "type" "subsection"; attr "sectioning_level" "4"]
       (elem "editor" [attr "type" "subsection"] NullNode).

End Samples.

(** The composite tags with required children, their handlers and how many
    children each handler asks for. *)
Inductive Composite :=
| fraction | exponent | subscript | subsup | function_application
| limit | sum | integral | at_point | differential.

Definition handler (c : Composite) (ParseTag : wxXmlNode -> bool -> M Chain)
  : wxXmlNode -> M Chain :=
  match c with
  | fraction => ParseFracTag ParseTag
  | exponent => ParseSupTag ParseTag
  | subscript => ParseSubTag ParseTag
  | subsup => ParseSubSupTag ParseTag
  | function_application => ParseFunTag ParseTag
  | limit => ParseLimitTag ParseTag
  | sum => ParseSumTag ParseTag
  | integral => ParseIntTag ParseTag
  | at_point => ParseAtTag ParseTag
  | differential => ParseDiffTag ParseTag
  end.

Definition required (c : Composite) (node : wxXmlNode) : nat :=
  match c with
  | fraction | exponent | subscript | function_application | at_point
  | differential => 2
  | subsup | limit | sum => 3
  | integral => match GetAttributes node with [] => 4 | _ => 2 end
  end%nat.

(** The tags built by the text-leaf constructors. *)
Definition leaf_tags : list string :=
  ["v"; "t"; "n"; "h"; "g"; "s"; "fnm"; "lbl"; "st"; "ascii"]%string.

(** [n] is one of the nodes of the sibling chain that starts at [node]. *)
Fixpoint sibling_of (n node : wxXmlNode) : Prop :=
  match node with
  | NullNode => False
  | XmlNode _ _ _ _ _ next => n = node \/ sibling_of n next
  end.

(** Whether a chain of children has a [fold] element. *)
Fixpoint has_fold (children : wxXmlNode) : bool :=
  match children with
  | NullNode => false
  | XmlNode _ name _ _ _ next => str_is name "fold" || has_fold next
  end.

(** The cell [ParseLine] gives in place of an input it does not parse. *)
Definition too_long_cell (P : Platform) : MathCell :=
  TextCell (Cell.ForceBreakLine true Cell.fresh)
           (translate P too_long_message).

(** The warning a loop may still show: one while its flag is up. *)
Definition pending (all : bool) (l : Locals) : nat :=
  if all && warning l then 1%nat else 0%nat.

(** ** Further notions for the properties of the builder *)

(** The number of nodes of the forest a node pointer reaches. *)
Fixpoint size (n : wxXmlNode) : nat :=
  match n with
  | NullNode => O
  | XmlNode _ _ _ _ children next => S (size children + size next)
  end.

(** The style context of the parser is as it was, and the message boxes
    shown before are still there, joined by warnings only. *)
Definition context_kept (P : Platform) (s s' : ParserState) : Prop :=
  m_ParserStyle s' = m_ParserStyle s
  /\ m_FracStyle s' = m_FracStyle s
  /\ m_highlight s' = m_highlight s
  /\ m_fileSystem s' = m_fileSystem s
  /\ exists warnings,
      messageBoxes s' = warnings ++ messageBoxes s
      /\ Forall (fun msg => msg = translate P Loop.unknown_tag_message)
                warnings.

(** A computation that keeps the context whenever it returns. *)
Definition keeps (P : Platform) {A} (c : M A) : Prop :=
  forall s a s', c s = (Ok a, s') -> context_kept P s s'.

(** The nodes of a sibling chain, in order. *)
Fixpoint nodes (n : wxXmlNode) : list wxXmlNode :=
  match n with
  | NullNode => []
  | XmlNode _ _ _ _ _ next => n :: nodes next
  end.


(** The string [ParseLine] hands to the XML reader. *)
Definition without_controls (s : wxString) : wxString :=
  map (fun c => if is_cntrl c then replacement_char else c) s.

(** The contents of the [line] elements of a chain of children. *)
Fixpoint line_contents (children : wxXmlNode) : list wxString :=
  match children with
  | NullNode => []
  | XmlNode _ name _ _ _ next =>
      if str_is name "line"
      then GetNodeContent children :: line_contents next
      else line_contents next
  end.

(** Lines joined by line feeds. *)
Definition join_lines (lines : list wxString) : wxString :=
  match lines with
  | [] => []
  | first :: rest => first ++ List.concat (map (cons 10%N) rest)
  end.

Fixpoint drop_empty (lines : list wxString) : list wxString :=
  match lines with
  | [] => []
  | l :: rest => if IsEmpty l then drop_empty rest else lines
  end.

(** Tokens joined by semicolons. *)
Fixpoint join_tokens (l : list wxString) : wxString :=
  match l with
  | [] => []
  | [t] => t
  | t :: rest => t ++ 59%N :: join_tokens rest
  end.

(** The tag names [ParseTag] has a branch for. *)
Definition known_tags : list string :=
  ["v"; "t"; "n"; "h"; "p"; "f"; "e"; "i"; "fn"; "g"; "s"; "fnm"; "q"; "d";
   "sm"; "in"; "mspace"; "at"; "a"; "cj"; "ie"; "lm"; "r"; "tb"; "mth";
   "line"; "lbl"; "st"; "hl"; "img"; "slide"; "editor"; "cell";
   "ascii"]%string.

(** The block types [ParseCellTag] has a branch for. *)
Definition known_block_types : list string :=
  ["code"; "image"; "pagebreak"; "text"; "title"; "section"; "subsection";
   "subsubsection"]%string.

(** The cell nodes of a table: the children of its rows. *)
Fixpoint table_cell_count (rows : wxXmlNode) : nat :=
  match rows with
  | NullNode => O
  | XmlNode _ _ _ _ cells next => (siblings cells + table_cell_count next)%nat
  end.

(** What [ParseLine] does with an input it parses: the context is set,
    the document is read and the children of its root are parsed. *)
Definition parse_document (P : Platform) (s : wxString) (style : Z)
  : M Chain :=
  modify (State.set_ParserStyle style) ;;;
  modify (State.set_FracStyle FC_NORMAL) ;;;
  modify (State.set_highlight false) ;;;
  match LoadRoot P (without_controls s) with
  | NullNode => ret []
  | XmlNode _ _ _ _ children _ => ParseTag P children true
  end.

(** Two parser states that differ at most in the digit cutoff last read
    from the configuration. *)
Definition same_but_digits (s s' : ParserState) : Prop :=
  m_ParserStyle s' = m_ParserStyle s
  /\ m_FracStyle s' = m_FracStyle s
  /\ m_highlight s' = m_highlight s
  /\ m_fileSystem s' = m_fileSystem s
  /\ messageBoxes s' = messageBoxes s.

(** The dispatch of [n] builds the one cell [c], in every state like [s]. *)
Definition yields_cell (dispatch : wxXmlNode -> M Chain) (s : ParserState)
           (n : wxXmlNode) (c : MathCell) : Prop :=
  forall s1, same_but_digits s s1 ->
             exists s2, dispatch n s1 = (Ok [c], s2) /\ same_but_digits s s2.



(** ** Further sample inputs *)

Module MoreSamples.

(** A platform whose XML reader gives the document [doc] for every
    text. *)
Definition reading (doc : wxXmlNode) (length : option Z) : Platform :=
  mkPlatform (mkConfig None length) (fun msg => msg) (fun _ => doc).

(** A parser in the middle of highlighted label output. *)
Definition busy_parser : ParserState :=
  mkState MC_TYPE_LABEL FC_DIFF true 0 false [].

(** [<mth><z/><hl><v>x</v></hl><d><f><v>a</v><v>b</v></f><v>y</v></d></mth>]
    inside a root. *)
Definition document : wxXmlNode :=
  elem "doc" []
    (elem "mth" []
       (elem "z" [] NullNode
          :>: elem "hl" [] (elem "v" [] (text (wxT "x")))
          :>: elem "d" []
                (elem "f" [] (elem "v" [] (text (wxT "a"))
                                :>: elem "v" [] (text (wxT "b")))
                   :>: elem "v" [] (text (wxT "y"))))).



(** [<editor type="text"><line/><line>a</line><line/><line>b</line></editor>] *)
Definition editor_with_blank_lines : wxXmlNode :=
  elem "editor" [attr "type" "text"]
    (elem "line" [] NullNode
       :>: elem "line" [] (text (wxT "a"))
       :>: elem "line" [] NullNode
       :>: elem "line" [] (text (wxT "b"))).

(** [<cell type="chapter"><editor/></cell>] *)
Definition chapter_cell : wxXmlNode :=
  elem "cell" [attr "type" "chapter"] (elem "editor" [] NullNode).

(** [<cell type="text"/>] *)
Definition empty_text_cell : wxXmlNode :=
  elem "cell" [attr "type" "text"] NullNode.


(** [<sm type="lsum"><v>i</v><n>9</n><v>a</v></sm>] *)
Definition lsum : wxXmlNode :=
  elem "sm" [attr "type" "lsum"]
    (elem "v" [] (text (wxT "i")) :>: Samples.number "9"
       :>: elem "v" [] (text (wxT "a"))).

(** [<tb><mtr><mtd><n>1</n></mtd><mtd><n>2</n></mtd></mtr>
        <mtr><mtd><n>3</n></mtd><mtd><x/></mtd></mtr></tb>] *)
Definition table : wxXmlNode :=
  elem "tb" []
    (elem "mtr" [] (elem "mtd" [] (Samples.number "1")
                      :>: elem "mtd" [] (Samples.number "2"))
       :>: elem "mtr" [] (elem "mtd" [] (Samples.number "3")
                            :>: elem "mtd" [] (elem "x" [] NullNode))).

(** [<mth><x/></mth>]: a line whose content yields no cell. *)
Definition empty_line : wxXmlNode := elem "mth" [] (elem "x" [] NullNode).

(** A parser that loads from an archive. *)
Definition archive_parser : ParserState :=
  State.MathParser (wxT "session.wxmx").

(** [<img>plot.png</img>] *)
Definition image : wxXmlNode := elem "img" [] (text (wxT "plot.png")).

(** [<cell type="section"><editor/><fold><cell type="pagebreak"/>
    <cell type="pagebreak" hide="true"/></fold></cell>] *)
Definition folded_section : wxXmlNode :=
  elem "cell" [attr "type" "section"]
    (elem "editor" [attr "type" "section"] NullNode
       :>: elem "fold" []
             (elem "cell" [attr "type" "pagebreak"] NullNode
                :>: elem "cell" [attr "type" "pagebreak"; attr "hide" "true"]
                      NullNode)).

(** The block [ParseTag(node, false)] builds for a node in a fresh
    parser. *)
Definition block_of (n : wxXmlNode) : MathCell :=
  match fst (ParseTag (Samples.platform None None) n false
                      Samples.fresh_parser) with
  | Ok [c] => c
  | _ => new_TextCell
  end.



End MoreSamples.

(** * Properties *)

(** ** Strings and machine integers *)

Lemma eqb_eq (a b : wxString) : WxString.eqb a b = true <-> a = b.
Proof.
  revert b; induction a as [|x a IH]; intros [|y b]; simpl; split;
    try congruence; try reflexivity.
  - intros H. apply andb_true_iff in H as [Hx Hab].
    apply N.eqb_eq in Hx. apply IH in Hab. congruence.
  - intros H. injection H as -> ->.
    rewrite N.eqb_refl. simpl. apply IH. reflexivity.
Qed.

Lemma ReplaceChar_length old new s :
  List.length (ReplaceChar old new s) = List.length s.
Proof. apply length_map. Qed.

Lemma ReplaceChar_absent old new s :
  ~ In old s -> ReplaceChar old new s = s.
Proof.
  induction s as [|c s IH]; simpl; intros H; [reflexivity|].
  destruct (N.eqb_spec c old) as [->|_].
  - exfalso. apply H. left. reflexivity.
  - f_equal. apply IH. intros Hin. apply H. right. exact Hin.
Qed.

Lemma to_int_small z : - 2 ^ 31 <= z <= INT_MAX -> to_int z = z.
Proof.
  unfold to_int, INT_MAX. intros H.
  rewrite Z.mod_small; lia.
Qed.

Lemma to_int_range z : - 2 ^ 31 <= to_int z <= INT_MAX.
Proof.
  unfold to_int, INT_MAX.
  pose proof (Z.mod_pos_bound (z + 2 ^ 31) (2 ^ 32) ltac:(lia)). lia.
Qed.

Lemma digit_cutoff_range P : 10 <= digit_cutoff P <= INT_MAX.
Proof.
  unfold digit_cutoff, Read.
  destruct (displayedDigits (config P)) as [d|].
  - pose proof (to_int_range d) as Hd. unfold INT_MAX in *.
    destruct (Z.ltb_spec (to_int d) 10); lia.
  - unfold INT_MAX. simpl. lia.
Qed.

Lemma digit_cutoff_max P :
  digit_cutoff P = Z.max 10 (Read (displayedDigits (config P)) 100).
Proof.
  unfold digit_cutoff.
  destruct (Z.ltb_spec (Read (displayedDigits (config P)) 100) 10); lia.
Qed.

(** [truncate_number] in the words of the policy. *)
Lemma truncate_number_spec P str :
  Length str <= INT_MAX ->
  let C := digit_cutoff P in
  let left := Z.min (C / 3) 30 in
  (Length str > C ->
   truncate_number P str =
     firstn (Z.to_nat left) str
       ++ Format_i (translate P digits_marker) (Length str - 2 * left)
       ++ skipn (List.length str - Z.to_nat left) str)
  /\ (Length str <= C -> truncate_number P str = str).
Proof.
  intros HL C left.
  pose proof (digit_cutoff_range P) as HC. fold C in HC.
  unfold truncate_number. fold C.
  assert (Hs : to_size_t C = C).
  { unfold to_size_t. apply Z.mod_small. unfold INT_MAX in HC. lia. }
  rewrite Hs.
  assert (Hq : (if 30 <? Z.quot C 3 then 30 else Z.quot C 3) = left).
  { unfold left. rewrite Z.quot_div_nonneg by lia.
    destruct (Z.ltb_spec 30 (C / 3)); lia. }
  rewrite Hq.
  assert (Hleft : 3 <= left <= 30).
  { unfold left. assert (3 <= C / 3) by (apply Z.div_le_lower_bound; lia).
    lia. }
  split; intros H.
  - destruct (Z.ltb_spec C (Length str)); [|lia].
    unfold Left, Right.
    destruct (Z.ltb_spec left 0); [lia|].
    rewrite (to_int_small (Length str)) by (unfold Length in *; lia).
    rewrite to_int_small by (unfold INT_MAX in *; lia).
    reflexivity.
  - destruct (Z.ltb_spec C (Length str)); [lia|reflexivity].
Qed.

(** ** ParseText and ParseCharCode *)

(** A number-styled leaf with content: the cell carries the string
    [truncate_number] makes of the content with its minus signs replaced. *)
Lemma ParseText_number P ty nm c content attrs ch nx s :
  ParseText P (XmlNode ty nm (c :: content) attrs ch nx) TS_NUMBER s =
    (Ok [TextCell
           (Cell.SetHighlight (m_highlight s)
              (Cell.SetStyle TS_NUMBER
                 (Cell.SetType (m_ParserStyle s) Cell.fresh)))
           (truncate_number P
              (ReplaceChar hyphen_minus minus_sign (c :: content)))],
     State.set_displayedDigits (digit_cutoff P) s).
Proof. reflexivity. Qed.

Lemma firstn_ReplaceChar n old new s :
  firstn n (ReplaceChar old new s) = ReplaceChar old new (firstn n s).
Proof. unfold ReplaceChar. apply firstn_map. Qed.

Lemma skipn_ReplaceChar n old new s :
  skipn n (ReplaceChar old new s) = ReplaceChar old new (skipn n s).
Proof. unfold ReplaceChar. apply skipn_map. Qed.

(** C1. A number-styled text leaf with content of length [L] and cutoff
    [C] (the configured digit count, 100 when absent, at least 10): when
    [L > C] the string shown is the first [left = min (C/3) 30] characters,
    the marker for [L - 2*left] digits, and the last [left] characters;
    when [L <= C] it is the content.  The content enters with every
    hyphen-minus shown as the minus sign, so a digit string enters as it
    is. *)
Theorem numeric_truncation :
  forall (P : Platform) ty nm content attrs ch nx (s : ParserState),
    let str := ReplaceChar hyphen_minus minus_sign content in
    let L := Length content in
    let C := Z.max 10 (Read (displayedDigits (config P)) 100) in
    let left := Z.min (C / 3) 30 in
    L <= INT_MAX ->
    exists b value,
      fst (ParseText P (XmlNode ty nm content attrs ch nx) TS_NUMBER s)
        = Ok [TextCell b value]
      /\ (L > C ->
          value = firstn (Z.to_nat left) str
                    ++ Format_i (translate P digits_marker) (L - 2 * left)
                    ++ skipn (List.length str - Z.to_nat left) str)
      /\ (L <= C -> value = str)
      /\ (~ In hyphen_minus content -> str = content).
Proof.
  intros P ty nm content attrs ch nx s str L C left HL.
  assert (Hlen : Length str = L).
  { unfold Length, str, L. rewrite ReplaceChar_length. reflexivity. }
  assert (Habs : ~ In hyphen_minus content -> str = content)
    by apply ReplaceChar_absent.
  destruct content as [|c content].
  - exists Cell.fresh, wxEmptyString. unfold L, Length. simpl.
    repeat split; auto; intros; lia.
  - rewrite ParseText_number. fold str.
    eexists. eexists. split; [reflexivity|].
    pose proof (truncate_number_spec P str) as Hspec.
    rewrite Hlen in Hspec. specialize (Hspec HL).
    rewrite digit_cutoff_max in Hspec. fold C left in Hspec.
    destruct Hspec as [Hgt Hle]. auto.
Qed.

(** C1, the instance of the specification: cutoff 10 and fourteen digits. *)
Lemma numeric_truncation_fourteen_digits :
  Length (wxT "12345678901234") <= INT_MAX
  /\ exists b,
      fst (ParseText (Samples.platform (Some 10) None)
                     (text (wxT "12345678901234")) TS_NUMBER
                     Samples.fresh_parser)
        = Ok [TextCell b (wxT "123" ++ wxT "[8 digits]" ++ wxT "234")].
Proof.
  assert (H : Length (wxT "12345678901234") <= INT_MAX)
    by (vm_compute; discriminate).
  split; [exact H|].
  destruct (numeric_truncation (Samples.platform (Some 10) None)
              wxXML_TEXT_NODE (wxT "text") (wxT "12345678901234")
              [] NullNode NullNode Samples.fresh_parser H)
    as (b & value & Heq & Hgt & _ & _).
  exists b. unfold text. rewrite Heq. rewrite Hgt; [reflexivity|].
  vm_compute. reflexivity.
Defined.

(** C2, as the code has it: the cell holds one value, the string shown.
    It is the content (minus signs replaced) when [L <= C]; when [L > C]
    it is the truncated string, and the content is not kept: contents of
    one length that agree on the first and the last [left] characters
    build the same cell. *)
Theorem number_cell_keeps_shown_string :
  forall (P : Platform) ty nm content content' attrs ch nx (s : ParserState),
    let L := Length content in
    let C := Z.max 10 (Read (displayedDigits (config P)) 100) in
    let left := Z.to_nat (Z.min (C / 3) 30) in
    L <= INT_MAX ->
    (L <= C ->
     exists b,
       fst (ParseText P (XmlNode ty nm content attrs ch nx) TS_NUMBER s)
         = Ok [TextCell b (ReplaceChar hyphen_minus minus_sign content)])
    /\ (L > C ->
        List.length content' = List.length content ->
        firstn left content' = firstn left content ->
        skipn (List.length content' - left) content'
          = skipn (List.length content - left) content ->
        ParseText P (XmlNode ty nm content' attrs ch nx) TS_NUMBER s
          = ParseText P (XmlNode ty nm content attrs ch nx) TS_NUMBER s).
Proof.
  intros P ty nm content content' attrs ch nx s L C left HL. split.
  - intros Hle. destruct content as [|c content].
    + exists Cell.fresh. reflexivity.
    + rewrite ParseText_number. eexists. simpl fst. do 3 f_equal.
      assert (Hr : Length (ReplaceChar hyphen_minus minus_sign (c :: content))
                   = L)
        by (unfold Length; rewrite ReplaceChar_length; reflexivity).
      apply truncate_number_spec; rewrite ?digit_cutoff_max, Hr; assumption.
  - intros Hgt Hlen Hfirst Hlast.
    assert (HL' : Length content' <= INT_MAX)
      by (unfold Length; rewrite Hlen; exact HL).
    assert (Hgt' : Length content' > C)
      by (unfold Length; rewrite Hlen; exact Hgt).
    destruct content as [|c content];
      [unfold L, C, Length in Hgt; simpl in Hgt; lia|].
    destruct content' as [|c' content']; [discriminate|].
    rewrite !ParseText_number. do 3 f_equal.
    set (r := ReplaceChar hyphen_minus minus_sign) in *.
    assert (Hr : forall t, Length (r t) = Length t)
      by (intros t; unfold Length, r; rewrite ReplaceChar_length; reflexivity).
    pose proof (truncate_number_spec P (r (c :: content))) as [H1 _];
      [rewrite Hr; exact HL|].
    pose proof (truncate_number_spec P (r (c' :: content'))) as [H2 _];
      [rewrite Hr; exact HL'|].
    rewrite digit_cutoff_max in H1, H2. fold C in H1, H2.
    rewrite H1, H2 by (rewrite Hr; assumption).
    rewrite !Hr. unfold r. rewrite !firstn_ReplaceChar, !skipn_ReplaceChar.
    rewrite !ReplaceChar_length. fold left.
    unfold Length. rewrite Hfirst, Hlast, Hlen. reflexivity.
Qed.

(** C2, an instance: cutoff 10, where [12345678901234] and
    [12300000000234] build one and the same cell. *)
Lemma number_cell_keeps_shown_string_instance :
  Length (wxT "12345678901234") <= INT_MAX
  /\ ParseText (Samples.platform (Some 10) None)
               (text (wxT "12300000000234")) TS_NUMBER Samples.fresh_parser
     = ParseText (Samples.platform (Some 10) None)
                 (text (wxT "12345678901234")) TS_NUMBER Samples.fresh_parser.
Proof.
  assert (H : Length (wxT "12345678901234") <= INT_MAX)
    by (vm_compute; discriminate).
  split; [exact H|].
  apply (number_cell_keeps_shown_string (Samples.platform (Some 10) None)
           wxXML_TEXT_NODE (wxT "text") (wxT "12345678901234")
           (wxT "12300000000234") [] NullNode NullNode
           Samples.fresh_parser H);
    vm_compute; reflexivity.
Defined.

(** C2 as stated fails: with cutoff 10 the cell built for the fourteen
    digits [12345678901234] holds [123[8 digits]234] and nothing else. *)
Lemma number_cell_loses_content :
  fst (ParseText (Samples.platform (Some 10) None)
                 (text (wxT "12345678901234")) TS_NUMBER Samples.fresh_parser)
    = Ok [TextCell (Cell.SetStyle TS_NUMBER Cell.fresh)
                   (wxT "123[8 digits]234")]
  /\ GetValue (TextCell (Cell.SetStyle TS_NUMBER Cell.fresh)
                        (wxT "123[8 digits]234"))
     <> wxT "12345678901234".
Proof. split; [reflexivity|]. vm_compute. discriminate. Qed.

(** C10. [ParseText] and [ParseCharCode] return a text cell for every
    node: the cell [new TextCell] left empty for a null node and for a
    node without content, a text cell with a value otherwise.  So each of
    the leaf tags v, t, n, h, g, s, fnm, lbl, st and ascii yields a text
    cell, never null, whatever the node holds. *)
Theorem text_leaves_never_null :
  (forall P style s,
      ParseText P NullNode style s = (Ok [new_TextCell], s)
      /\ ParseCharCode NullNode style s = (Ok [new_TextCell], s))
  /\ (forall P ty nm attrs ch nx style s,
      ParseText P (XmlNode ty nm wxEmptyString attrs ch nx) style s
        = (Ok [new_TextCell], s)
      /\ ParseCharCode (XmlNode ty nm wxEmptyString attrs ch nx) style s
         = (Ok [new_TextCell], s))
  /\ GetValue new_TextCell = wxEmptyString
  /\ (forall P node style s,
      exists b value,
        fst (ParseText P node style s) = Ok [TextCell b value])
  /\ (forall node style s,
      exists b value,
        fst (ParseCharCode node style s) = Ok [TextCell b value])
  /\ Forall
       (fun tag : string =>
          forall P ParseTag content attrs children next s,
          exists b value,
            fst (ParseNode P ParseTag
                   (XmlNode wxXML_ELEMENT_NODE (wxT tag) content attrs
                            children next) s)
              = Ok [TextCell b value])
       leaf_tags.
Proof.
  assert (HT : forall P node style s,
             exists b value,
               fst (ParseText P node style s) = Ok [TextCell b value]).
  { intros P [|ty nm [|c content] attrs ch nx] style s;
      try (eexists; eexists; reflexivity).
    destruct style; eexists; eexists; reflexivity. }
  assert (HC : forall node style s,
             exists b value,
               fst (ParseCharCode node style s) = Ok [TextCell b value]).
  { intros [|ty nm [|c content] attrs ch nx] style s;
      eexists; eexists; reflexivity. }
  repeat split; auto.
  unfold leaf_tags.
  repeat (apply Forall_cons; [| ]); try apply Forall_nil;
    intros P PT content attrs children next s.
  - exact (HT P children TS_VARIABLE s).
  - change (exists b value,
      fst (ParseText P children
             (if str_is (GetAttribute
                           (XmlNode wxXML_ELEMENT_NODE (wxT "t") content attrs
                                    children next) "type" wxEmptyString)
                        "error"
              then TS_ERROR else TS_DEFAULT) s) = Ok [TextCell b value]).
    apply HT.
  - exact (HT P children TS_NUMBER s).
  - change (exists b value,
      fst (bind (ParseText P children TS_DEFAULT)
                (fun tmp => ret (on_head (Cell.SetHidden true) tmp)) s)
        = Ok [TextCell b value]).
    unfold bind.
    destruct (HT P children TS_DEFAULT s) as (b & v & H).
    destruct (ParseText P children TS_DEFAULT s) as [[a|] s'];
      simpl in H; [|discriminate].
    injection H as ->. eexists; eexists; reflexivity.
  - exact (HT P children TS_GREEK_CONSTANT s).
  - exact (HT P children TS_SPECIAL_CONSTANT s).
  - exact (HT P children TS_FUNCTION s).
  - change (exists b value,
      fst (bind (ParseText P children
                   (if negb (str_is (GetAttribute
                                (XmlNode wxXML_ELEMENT_NODE (wxT "lbl") content
                                         attrs children next)
                                "userdefined" (wxT "no")) "yes")
                    then TS_LABEL else TS_USERLABEL))
                (fun tmp => ret (on_head (Cell.ForceBreakLine true) tmp)) s)
        = Ok [TextCell b value]).
    unfold bind.
    match goal with
    | |- context [ParseText P children ?st s] =>
        destruct (HT P children st s) as (b & v & H);
        destruct (ParseText P children st s) as [[a|] s']
    end; simpl in H; [|discriminate].
    injection H as ->. eexists; eexists; reflexivity.
  - exact (HT P children TS_STRING s).
  - exact (HC children TS_DEFAULT s).
Qed.

(** ** ParseLine *)

Lemma cntrl_replacement_length (s : wxString) :
  Length (map (fun c => if is_cntrl c then replacement_char else c) s)
    = Length s.
Proof. unfold Length. rewrite length_map. reflexivity. Qed.

(** [ParseLine] below the cutoff and at or above it. *)
Lemma ParseLine_cases P s style st :
  0 <= length_cutoff P < 2 ^ 64 ->
  let st' := State.set_highlight false
               (State.set_FracStyle FC_NORMAL
                  (State.set_ParserStyle style st)) in
  length_cutoff P <= Length s ->
  ParseLine P s style st = (Ok [too_long_cell P], st').
Proof.
  intros Hc st' Hlen. unfold ParseLine, bind, modify.
  rewrite cntrl_replacement_length.
  unfold to_size_t. rewrite Z.mod_small by exact Hc.
  destruct (Z.ltb_spec (Length s) (length_cutoff P)); [lia|].
  reflexivity.
Qed.

(** C4. With selector 0 the cutoff is 50,000 and an input of 50,001
    characters makes [ParseLine] return one text cell, the "too long to
    display" message with a forced line break; the XML reader and
    [ParseTag] are not run on it: the result is the same for every reader,
    and no message box appears. *)
Theorem oversized_input_placeholder :
  forall digits translate LoadRoot (s : wxString) style st,
    let P := mkPlatform (mkConfig digits (Some 0)) translate LoadRoot in
    Length s = 50001 ->
    length_cutoff P = 50000
    /\ fst (ParseLine P s style st)
       = Ok [TextCell (Cell.ForceBreakLine true Cell.fresh)
                      (translate too_long_message)]
    /\ Cell.m_forceBreakLine (Cell.ForceBreakLine true Cell.fresh) = true
    /\ messageBoxes (snd (ParseLine P s style st)) = messageBoxes st.
Proof.
  intros digits tr load s style st P Hlen.
  assert (Hcut : length_cutoff P = 50000) by reflexivity.
  split; [exact Hcut|].
  rewrite ParseLine_cases.
  - repeat split.
  - rewrite Hcut. lia.
  - rewrite Hcut, Hlen. lia.
Qed.

(** C4 on 50,001 zeros. *)
Lemma oversized_input_placeholder_zeros :
  Length Samples.zeros = 50001
  /\ fst (ParseLine (Samples.platform None (Some 0)) Samples.zeros
                    MC_TYPE_DEFAULT Samples.fresh_parser)
     = Ok [TextCell (Cell.ForceBreakLine true Cell.fresh) too_long_message].
Proof.
  assert (H : Length Samples.zeros = 50001) by (vm_compute; reflexivity).
  split; [exact H|].
  apply (oversized_input_placeholder None (fun msg => msg)
           (fun _ => NullNode) Samples.zeros MC_TYPE_DEFAULT
           Samples.fresh_parser H).
Defined.

(** C3, what the code does: with selector 3 the [switch] sets the cutoff
    to 0, [s.Length() < 0] is false, and [(showLength=0)] is an assignment
    of value 0, so the condition fails for every input and [ParseLine]
    returns the placeholder without parsing. *)
Theorem unlimited_selector_never_parses :
  forall digits translate LoadRoot (s : wxString) style st,
    let P := mkPlatform (mkConfig digits (Some 3)) translate LoadRoot in
    fst (ParseLine P s style st)
      = Ok [TextCell (Cell.ForceBreakLine true Cell.fresh)
                     (translate too_long_message)].
Proof.
  intros digits tr load s style st P.
  rewrite ParseLine_cases.
  - reflexivity.
  - change (length_cutoff P) with 0. lia.
  - change (length_cutoff P) with 0. unfold Length. lia.
Qed.

(** ** ParseTag: one node, and the sibling loop *)

Lemma ParseTag_unfold P node all :
  ParseTag P node all
    = sibling_loop P (ParseNode P (ParseTag P)) node all (Loop.start all).
Proof. destruct node; reflexivity. Qed.

Lemma result_of_first p all :
  Loop.result (Loop.attach p (Loop.start all)) = p.
Proof. destruct p; reflexivity. Qed.

(** With [all] false, [ParseTag] is the dispatch of the node it is given:
    the loop body runs once and [break] comes before the bookkeeping. *)
Lemma ParseTag_first_only P ty nm c a ch next s :
  ParseTag P (XmlNode ty nm c a ch next) false s
    = ParseNode P (ParseTag P) (XmlNode ty nm c a ch next) s.
Proof.
  rewrite ParseTag_unfold.
  change (bind (ParseNode P (ParseTag P) (XmlNode ty nm c a ch next))
               (fun p => ret (Loop.result (Loop.attach p (Loop.start false))))
               s
          = ParseNode P (ParseTag P) (XmlNode ty nm c a ch next) s).
  unfold bind, ret.
  destruct (ParseNode P (ParseTag P) (XmlNode ty nm c a ch next) s)
    as [[p|] s']; [rewrite result_of_first|]; reflexivity.
Qed.

(** C8, as the code has it: [ParseTag(node, false)] handles the node it is
    given and no other.  The result is what the handler of that node
    yields, a chain or nothing, and the siblings that follow play no
    part. *)
Theorem ParseTag_not_all_handles_first_node :
  forall P ty nm c a ch next next' s,
    ParseTag P (XmlNode ty nm c a ch next) false s
      = ParseNode P (ParseTag P) (XmlNode ty nm c a ch next) s
    /\ ParseTag P (XmlNode ty nm c a ch next) false s
       = ParseTag P (XmlNode ty nm c a ch next') false s.
Proof.
  intros. split; [apply ParseTag_first_only|reflexivity].
Qed.

(** C8 as stated fails: in [<f><n>2</n></f><n>3</n>] the second node
    produces a cell, and [ParseTag(node, false)] returns null. *)
Lemma ParseTag_not_all_returns_null_before_a_cell :
  fst (ParseTag (Samples.platform None None)
                (Samples.half_fraction :>: Samples.number "3") false
                Samples.fresh_parser) = Ok []
  /\ Samples.texts
       (fst (ParseTag (Samples.platform None None) (Samples.number "3") false
                      Samples.fresh_parser))
     = Some [(wxT "3", wxEmptyString)].
Proof. split; reflexivity. Qed.

(** C7, what the code does.  [if (!all) break;] comes before the altCopy
    attribute is read: with [all] false a variable leaf has no alternate
    copy text whatever its attributes are, and [<n altCopy="x">1</n>]
    parsed with [all] false has none, parsed with [all] true it has.  With [all]
    true the text goes to the cell [cell] points to after the bookkeeping,
    which is the second cell of the row in
    [<r><n>1</n><n>2</n></r><n altCopy="x">3</n>]. *)
Theorem altCopy_skipped_by_break :
  (forall P content attrs children next s,
      exists b value,
        fst (ParseTag P (XmlNode wxXML_ELEMENT_NODE (wxT "v") content attrs
                                 children next) false s)
          = Ok [TextCell b value]
        /\ Cell.m_altCopyText b = wxEmptyString)
  /\ Samples.texts
    (fst (ParseTag (Samples.platform None None) Samples.number_with_altCopy
                   false Samples.fresh_parser))
    = Some [(wxT "1", wxEmptyString)]
  /\ Samples.texts
       (fst (ParseTag (Samples.platform None None) Samples.number_with_altCopy
                      true Samples.fresh_parser))
     = Some [(wxT "1", wxT "x")]
  /\ Samples.texts
       (fst (ParseTag (Samples.platform None None) Samples.row_then_altCopy
                      true Samples.fresh_parser))
     = Some [(wxT "1", wxEmptyString); (wxT "2", wxT "x");
             (wxT "3", wxEmptyString)].
Proof.
  split; [|repeat split; reflexivity].
  intros P content attrs children next s. rewrite ParseTag_first_only.
  change (exists b value,
             fst (ParseText P children TS_VARIABLE s) = Ok [TextCell b value]
             /\ Cell.m_altCopyText b = wxEmptyString).
  destruct children as [|ty nm [|c ct] a ch nx];
    eexists; eexists; split; reflexivity.
Qed.

(** A composite handler given fewer children than it asks for returns no
    cell, whatever the children it has parse to. *)
Lemma short_composite_yields_no_cell
      (c : Composite) (ParseTag : wxXmlNode -> bool -> M Chain)
      ty nm ct attrs children nx (p : Chain) (s s' : ParserState) :
  let node := XmlNode ty nm ct attrs children nx in
  (siblings children < required c node)%nat ->
  handler c ParseTag node s = (Ok p, s') ->
  p = [].
Proof.
  intros node Hshort Hrun. subst node.
  destruct c; simpl in Hshort, Hrun;
    unfold ParseFracTag, ParseSupTag, ParseSubTag, ParseSubSupTag,
      ParseFunTag, ParseLimitTag, ParseSumTag, ParseIntTag, ParseAtTag,
      ParseDiffTag, SetExponentFlag, bind, ret, get, modify, crash in Hrun;
    repeat match type of Hrun with
      | context [match ?x with _ => _ end] =>
          destruct x eqn:?; simpl in Hshort; try lia; try discriminate
      end;
    try (injection Hrun as <- _; reflexivity);
    simpl in Hshort; lia.
Qed.

(** C5, what the code does.  The handler of a composite with a child
    missing returns null, and the loop goes on to the next sibling; but
    when a cell came before, [cell = cell->m_next] then leaves [cell] null,
    and the cell of the next sibling is assigned to [cell] and not linked
    to the chain: of [<n>1</n><f><n>2</n></f><n>3</n>] the result holds
    the cell of 1 alone, and no warning is shown.  When the node has an
    altCopy attribute and no cell came before, [cell->SetAltCopyText] runs
    on the null pointer. *)
Theorem malformed_composite_breaks_chain :
  Samples.texts
    (fst (ParseTag (Samples.platform None None)
                   (Samples.number "1" :>: Samples.half_fraction
                      :>: Samples.number "3")
                   true Samples.fresh_parser))
    = Some [(wxT "1", wxEmptyString)]
  /\ shown (ParseTag (Samples.platform None None)
                     (Samples.number "1" :>: Samples.half_fraction
                        :>: Samples.number "3")
                     true Samples.fresh_parser) = 0%nat
  /\ fst (ParseTag (Samples.platform None None)
                   Samples.half_fraction_with_altCopy true
                   Samples.fresh_parser) = Crash
  /\ Samples.texts
       (fst (ParseTag (Samples.platform None None)
                      (Samples.half_fraction :>: Samples.number "3")
                      true Samples.fresh_parser))
     = Some [(wxT "3", wxEmptyString)].
Proof. repeat split; reflexivity. Qed.

(** ** The warning *)

Lemma attach_warning p l : warning (Loop.attach p l) = warning l.
Proof. unfold Loop.attach. destruct (cell l); reflexivity. Qed.

(** The bookkeeping shows the warning only with the flag up, and takes
    the flag down when it does. *)
Lemma bookkeeping_warns_once P node l s :
  (shown (bookkeeping P node l s)
   + match fst (bookkeeping P node l s) with
     | Ok l' => pending true l'
     | Crash => 0
     end
   <= List.length (messageBoxes s) + pending true l)%nat.
Proof.
  unfold bookkeeping, shown, pending, bind, ret, wxMessageBox, modify,
    Loop.SetAltCopyText, crash.
  destruct l as [t c w]. simpl.
  destruct (FindAttribute node "altCopy"), w, c as [|i|c0 rest], t; simpl;
    try lia;
    match goal with
    | |- context [Loop.next_cell ?l] => destruct (Loop.next_cell l)
    end; simpl; lia.
Qed.

(** The loop of one invocation shows at most one warning of its own.
    [k] bounds what the dispatch of one node shows (the warnings of the
    invocations nested in it). *)
Lemma sibling_loop_warns_once P dispatch k :
  forall node all l s,
    (forall n, sibling_of n node ->
               forall s', (shown (dispatch n s')
                           <= List.length (messageBoxes s') + k)%nat) ->
    (shown (sibling_loop P dispatch node all l s)
     <= List.length (messageBoxes s) + k * siblings node + pending all l)%nat.
Proof.
  induction node as [|ty nm c a ch _ next IH]; intros all l s Hk.
  - unfold shown. simpl. lia.
  - assert (Hhere := Hk _ (or_introl eq_refl) s).
    assert (Hnext : forall n, sibling_of n next ->
                     forall s', (shown (dispatch n s')
                                 <= List.length (messageBoxes s') + k)%nat)
      by (intros n Hn; apply Hk; right; exact Hn).
    simpl sibling_loop. simpl siblings. unfold bind at 1.
    unfold shown in Hhere.
    destruct (dispatch (XmlNode ty nm c a ch next) s) as [[p|] s1];
      simpl in Hhere; [|unfold shown; simpl; lia].
    destruct all; unfold negb; cbv beta iota zeta.
    + unfold bind.
      pose proof (bookkeeping_warns_once P (XmlNode ty nm c a ch next)
                    (Loop.attach p l) s1) as Hb.
      unfold shown in Hb.
      destruct (bookkeeping P (XmlNode ty nm c a ch next)
                  (Loop.attach p l) s1) as [[l2|] s2]; simpl in Hb.
      * specialize (IH true l2 s2 Hnext).
        unfold pending in *. rewrite attach_warning in Hb.
        rewrite Nat.mul_succ_r. simpl in *. lia.
      * unfold shown, pending in *. rewrite attach_warning in Hb.
        rewrite Nat.mul_succ_r. simpl in *. lia.
    + unfold shown, ret. rewrite Nat.mul_succ_r. simpl. lia.
Qed.

(** C6, as the code has it: the flag [warning] is a local of [ParseTag],
    so each invocation shows the warning at most once for its own
    siblings, however many of them yield no cell, and never with [all]
    false.  The invocations nested in the handlers have flags of their
    own: when the dispatch of one sibling shows at most [k] warnings, the
    invocation shows at most [k] for each sibling and one more. *)
Theorem warning_once_per_invocation :
  forall P (k : nat) node all s,
    (forall n, sibling_of n node ->
               forall s', (shown (ParseNode P (ParseTag P) n s')
                           <= List.length (messageBoxes s') + k)%nat) ->
    (shown (ParseTag P node all s)
     <= List.length (messageBoxes s) + k * siblings node
        + (if all then 1 else 0))%nat.
Proof.
  intros P k node all s Hk. rewrite ParseTag_unfold.
  pose proof (sibling_loop_warns_once P (ParseNode P (ParseTag P)) k
                node all (Loop.start all) s Hk) as H.
  unfold pending in H. simpl in H. rewrite andb_diag in H. exact H.
Qed.

(** C6 on [<x/><f/><y/>]: three siblings without a cell, none with a
    nested warning, one warning. *)
Lemma warning_once_per_invocation_three_failures :
  (forall n, sibling_of n Samples.three_failures ->
             forall s', (shown (ParseNode (Samples.platform None None)
                                  (ParseTag (Samples.platform None None)) n s')
                         <= List.length (messageBoxes s') + 0)%nat)
  /\ (shown (ParseTag (Samples.platform None None) Samples.three_failures
                      true Samples.fresh_parser)
      <= List.length (messageBoxes Samples.fresh_parser)
         + 0 * siblings Samples.three_failures + 1)%nat.
Proof.
  assert (H : forall n, sibling_of n Samples.three_failures ->
                forall s', (shown (ParseNode (Samples.platform None None)
                                     (ParseTag (Samples.platform None None))
                                     n s')
                            <= List.length (messageBoxes s') + 0)%nat).
  { intros n Hn s'. simpl in Hn.
    destruct Hn as [-> | [-> | [-> | []]]];
      unfold shown; simpl; lia. }
  split; [exact H|].
  exact (warning_once_per_invocation (Samples.platform None None) 0
           Samples.three_failures true Samples.fresh_parser H).
Defined.

(** C6 as stated fails: one top-level call on [<x/><q><x/></q>] shows the
    warning twice, once in the top-level invocation and once in the
    invocation on the child of the square root. *)
Lemma nested_invocation_warns_again :
  shown (ParseTag (Samples.platform None None) Samples.unknown_then_root true
                  Samples.fresh_parser) = 2%nat
  /\ messageBoxes Samples.fresh_parser = [].
Proof. split; reflexivity. Qed.

(** ** ParseCellTag *)

(** Without a [fold] child the children of a heading are read without a
    call to [ParseTag]. *)
Lemma heading_children_without_fold ParseTag children g s :
  has_fold children = false ->
  exists g', heading_children ParseTag children g s = (Ok g', s).
Proof.
  revert g. induction children as [|ty nm c a ch _ next IH]; intros g Hf.
  - exists g. reflexivity.
  - simpl in Hf. apply orb_false_iff in Hf as [Hname Hnext].
    simpl. rewrite Hname. unfold bind.
    destruct (str_is nm "editor"); simpl; apply IH; exact Hnext.
Qed.

(** The group type [ParseCellTag] picks for a heading of type
    [subsection]. *)
Lemma subsection_group ParseTag ty nm ct attrs children nx s :
  let node := XmlNode ty nm ct attrs children nx in
  GetAttribute node "type" (wxT "text") = wxT "subsection" ->
  ParseCellTag ParseTag node s
    = bind (heading_children ParseTag children Group.empty)
           (fun g =>
              ret [Group.build
                     (if str_is (GetAttribute node "sectioning_level" (wxT "0"))
                                "4"
                      then GC_TYPE_SUBSUBSECTION else GC_TYPE_SUBSECTION)
                     (str_is (GetAttribute node "hide" (wxT "false")) "true")
                     g]) s.
Proof.
  intros node Htype. unfold ParseCellTag. fold node. rewrite Htype.
  destruct (str_is (GetAttribute node "sectioning_level" (wxT "0")) "4");
    reflexivity.
Qed.

(** C9. A block node of type [subsection]: with the sectioning-level
    attribute equal to "4" the block built is a sub-subsection, with any
    other value, or without the attribute, a subsection.  [ParseCellTag]
    returns no other block for it, and it returns this block whenever the
    node has no folded cells to parse. *)
Theorem subsection_sectioning_level :
  forall P ty nm ct attrs children nx s,
    let node := XmlNode ty nm ct attrs children nx in
    GetAttribute node "type" (wxT "text") = wxT "subsection" ->
    let expected :=
      match FindAttribute node "sectioning_level" with
      | Some level =>
          if WxString.eqb level (wxT "4")
          then GC_TYPE_SUBSUBSECTION else GC_TYPE_SUBSECTION
      | None => GC_TYPE_SUBSECTION
      end in
    (forall r s',
        ParseCellTag (ParseTag P) node s = (Ok r, s') ->
        exists g, r = [g] /\ Group.groupType g = Some expected)
    /\ (has_fold children = false ->
        exists g,
          ParseCellTag (ParseTag P) node s = (Ok [g], s)
          /\ Group.groupType g = Some expected).
Proof.
  intros P ty nm ct attrs children nx s node Htype expected.
  assert (Hexp : (if str_is (GetAttribute node "sectioning_level" (wxT "0"))
                            "4"
                  then GC_TYPE_SUBSUBSECTION else GC_TYPE_SUBSECTION)
                 = expected).
  { unfold expected, GetAttribute, str_is.
    destruct (FindAttribute node "sectioning_level"); reflexivity. }
  pose proof (subsection_group (ParseTag P) ty nm ct attrs children nx s
                Htype) as Hgroup.
  fold node in Hgroup. rewrite Hexp in Hgroup. rewrite Hgroup.
  unfold bind, ret. split.
  - intros r s' Hrun.
    destruct (heading_children (ParseTag P) children Group.empty s)
      as [[g|] s1]; [|discriminate].
    injection Hrun as <- _. eexists. split; reflexivity.
  - intros Hf.
    destruct (heading_children_without_fold (ParseTag P) children
                Group.empty s Hf) as [g' ->].
    eexists. split; reflexivity.
Qed.

(** C9 on [<cell type="subsection" sectioning_level="4">]: a
    sub-subsection block, also when the node is reached through
    [ParseTag]. *)
Lemma subsection_sectioning_level_four :
  GetAttribute Samples.subsubsection_cell "type" (wxT "text")
    = wxT "subsection"
  /\ exists g,
      ParseTag (Samples.platform None None) Samples.subsubsection_cell true
               Samples.fresh_parser = (Ok [g], Samples.fresh_parser)
      /\ Group.groupType g = Some GC_TYPE_SUBSUBSECTION.
Proof.
  assert (H : GetAttribute Samples.subsubsection_cell "type" (wxT "text")
              = wxT "subsection") by reflexivity.
  split; [exact H|].
  destruct (subsection_sectioning_level (Samples.platform None None)
              wxXML_ELEMENT_NODE (wxT "cell") wxEmptyString
              [attr "type" "subsection"; attr "sectioning_level" "4"]
              (elem "editor" [attr "type" "subsection"] NullNode) NullNode
              Samples.fresh_parser H) as [_ Hret].
  destruct (Hret eq_refl) as (g & Hrun & Hg).
  exists g. split; [|exact Hg].
  rewrite <- Hrun. reflexivity.
Defined.

(** * Further properties of the builder *)

(** ** The style context across a parse *)

Lemma context_kept_refl P s : context_kept P s s.
Proof.
  repeat split. exists []. split; [reflexivity|constructor].
Qed.

Lemma context_kept_trans P s1 s2 s3 :
  context_kept P s1 s2 -> context_kept P s2 s3 -> context_kept P s1 s3.
Proof.
  intros (A1 & B1 & C1 & D1 & w1 & E1 & F1) (A2 & B2 & C2 & D2 & w2 & E2 & F2).
  repeat split; try congruence.
  exists (w2 ++ w1). split.
  - rewrite E2, E1. apply app_assoc.
  - apply Forall_app. split; assumption.
Qed.

Lemma keeps_ret P {A} (a : A) : keeps P (ret a).
Proof. intros s a' s' H. injection H as _ <-. apply context_kept_refl. Qed.

Lemma keeps_crash P {A} : keeps P (@crash A).
Proof. intros s a s' H. discriminate. Qed.

Lemma keeps_get P : keeps P get.
Proof. intros s a s' H. injection H as _ <-. apply context_kept_refl. Qed.

Lemma keeps_bind P {A B} (c : M A) (k : A -> M B) :
  keeps P c -> (forall a, keeps P (k a)) -> keeps P (bind c k).
Proof.
  intros Hc Hk s b s' H. unfold bind in H.
  destruct (c s) as [[a|] s1] eqn:E; [|discriminate].
  eapply context_kept_trans; [eapply Hc; exact E|eapply Hk; exact H].
Qed.

Lemma keeps_displayedDigits P v : keeps P (modify (State.set_displayedDigits v)).
Proof.
  intros s a s' H. injection H as _ <-.
  repeat split. exists []. split; [reflexivity|constructor].
Qed.

Lemma keeps_warning P :
  keeps P (wxMessageBox (translate P Loop.unknown_tag_message)).
Proof.
  intros s a s' H. injection H as _ <-.
  repeat split. exists [translate P Loop.unknown_tag_message].
  split; [reflexivity|]. constructor; [reflexivity|constructor].
Qed.

(** A computation run under a fraction style or a highlight flag of its
    own, with the old one put back after it. *)
Lemma keeps_under_FracStyle P {A B} v (c : M A) (k : A -> M B) :
  keeps P c -> (forall a, keeps P (k a)) ->
  keeps P (s0 <- get ;;
           modify (State.set_FracStyle v) ;;;
           x <- c ;;
           modify (State.set_FracStyle (m_FracStyle s0)) ;;;
           k x).
Proof.
  intros Hc Hk s b s' H. unfold bind, get, modify in H.
  destruct (c (State.set_FracStyle v s)) as [[a|] s1] eqn:E; [|discriminate].
  apply Hc in E. apply Hk in H.
  eapply context_kept_trans; [|exact H].
  destruct E as (A1 & B1 & C1 & D1 & w & E1 & F1). simpl in *.
  repeat split; try assumption. exists w. split; assumption.
Qed.

Lemma keeps_under_highlight P {A B} v (c : M A) (k : A -> M B) :
  keeps P c -> (forall a, keeps P (k a)) ->
  keeps P (s0 <- get ;;
           modify (State.set_highlight v) ;;;
           x <- c ;;
           modify (State.set_highlight (m_highlight s0)) ;;;
           k x).
Proof.
  intros Hc Hk s b s' H. unfold bind, get, modify in H.
  destruct (c (State.set_highlight v s)) as [[a|] s1] eqn:E; [|discriminate].
  apply Hc in E. apply Hk in H.
  eapply context_kept_trans; [|exact H].
  destruct E as (A1 & B1 & C1 & D1 & w & E1 & F1). simpl in *.
  repeat split; try assumption. exists w. split; assumption.
Qed.

Lemma keeps_ParseText P node style : keeps P (ParseText P node style).
Proof.
  unfold ParseText.
  destruct node as [|ty nm [|c ct] a ch nx]; simpl; try apply keeps_ret.
  apply keeps_bind.
  - destruct style; try apply keeps_ret.
    apply keeps_bind; [apply keeps_displayedDigits|intros; apply keeps_ret].
  - intros str. apply keeps_bind; [apply keeps_get|intros; apply keeps_ret].
Qed.

Lemma keeps_ParseCharCode P node style : keeps P (ParseCharCode node style).
Proof.
  unfold ParseCharCode.
  destruct node as [|ty nm [|c ct] a ch nx]; simpl; try apply keeps_ret.
  apply keeps_bind; [apply keeps_get|intros; apply keeps_ret].
Qed.

Lemma keeps_ParseEditorTag P node : keeps P (ParseEditorTag node).
Proof. apply keeps_ret. Qed.

Ltac keeps_tac HPT :=
  repeat first
    [ apply keeps_ret
    | apply keeps_crash
    | apply keeps_get
    | apply keeps_ParseText
    | apply keeps_ParseCharCode
    | apply keeps_ParseEditorTag
    | apply HPT; simpl in *; lia
    | apply keeps_bind; [|intros ?]
    | match goal with
      | |- keeps _ (match ?x with _ => _ end) => destruct x
      | |- keeps _ (if ?b then _ else _) => destruct b
      | |- keeps _ (SetExponentFlag ?p) => unfold SetExponentFlag
      | |- keeps _ (GetValueOf ?p) => unfold GetValueOf
      end ].

Section Keeps.

Variable P : Platform.
Variable PT : wxXmlNode -> bool -> M Chain.

Lemma keeps_composite c node :
  (forall n a, (size n <= size (GetChildren node))%nat -> keeps P (PT n a)) ->
  keeps P (handler c PT node).
Proof.
  intros HPT. destruct c; simpl;
    unfold ParseFracTag, ParseSupTag, ParseSubTag, ParseSubSupTag,
      ParseFunTag, ParseLimitTag, ParseSumTag, ParseIntTag, ParseAtTag;
    try (keeps_tac HPT; fail).
  unfold ParseDiffTag.
  destruct node as [|ty nm ct at' child nx]; [apply keeps_crash|].
  destruct child as [|ty2 nm2 ct2 at2 ch2 child2]; [apply keeps_ret|].
  apply keeps_under_FracStyle; [apply HPT; simpl; lia|].
  intros diff. keeps_tac HPT.
Qed.

Lemma keeps_unary node :
  (forall n a, (size n <= size (GetChildren node))%nat -> keeps P (PT n a)) ->
  keeps P (ParseSqrtTag PT node) /\ keeps P (ParseAbsTag PT node)
  /\ keeps P (ParseConjugateTag PT node) /\ keeps P (ParseParenTag PT node).
Proof.
  intros HPT.
  unfold ParseSqrtTag, ParseAbsTag, ParseConjugateTag, ParseParenTag.
  split; [|split; [|split]]; keeps_tac HPT.
Qed.

Lemma keeps_table_cells B cells acc :
  (forall n a, (size n <= B)%nat -> keeps P (PT n a)) ->
  (size cells <= B)%nat ->
  keeps P (table_cells PT cells acc).
Proof.
  intros HPT. revert acc.
  induction cells as [|ty nm ct at' ch _ next IH]; intros acc HB; simpl.
  - apply keeps_ret.
  - apply keeps_bind; [apply HPT; exact HB|].
    intros c. apply IH. simpl in HB. lia.
Qed.

Lemma keeps_table_rows B rows height acc :
  (forall n a, (size n <= B)%nat -> keeps P (PT n a)) ->
  (size rows <= B)%nat ->
  keeps P (table_rows PT rows height acc).
Proof.
  intros HPT. revert height acc.
  induction rows as [|ty nm ct at' cells _ next IH]; intros height acc HB;
    simpl.
  - apply keeps_ret.
  - simpl in HB. apply keeps_bind.
    + apply (keeps_table_cells B); [exact HPT|lia].
    + intros acc'. apply IH. lia.
Qed.

Lemma keeps_ParseTableTag node :
  (forall n a, (size n <= size (GetChildren node))%nat -> keeps P (PT n a)) ->
  keeps P (ParseTableTag PT node).
Proof.
  intros HPT. unfold ParseTableTag.
  apply keeps_bind; [apply keeps_get|intros s0].
  destruct node as [|ty nm ct at' rows nx]; [apply keeps_crash|].
  apply keeps_bind.
  - apply (keeps_table_rows (size rows)); [exact HPT|lia].
  - intros r. keeps_tac HPT.
Qed.

Lemma keeps_code_children B children g :
  (forall n a, (size n <= B)%nat -> keeps P (PT n a)) ->
  (size children <= B)%nat ->
  keeps P (code_children PT children g).
Proof.
  intros HPT. revert g.
  induction children as [|ty nm ct at' inner _ next IH]; intros g HB; simpl.
  - apply keeps_ret.
  - simpl in HB. apply keeps_bind; [|intros g1; apply keeps_bind].
    + keeps_tac HPT.
    + keeps_tac HPT.
    + intros g2. apply IH. lia.
Qed.

Lemma keeps_image_children B children g :
  (forall n a, (size n <= B)%nat -> keeps P (PT n a)) ->
  (size children <= B)%nat ->
  keeps P (image_children PT children g).
Proof.
  intros HPT. revert g.
  induction children as [|ty nm ct at' inner _ next IH]; intros g HB; simpl.
  - apply keeps_ret.
  - apply keeps_bind.
    + keeps_tac HPT.
    + intros g2. apply IH. simpl in HB. lia.
Qed.

Lemma keeps_fold_cells B xmlcells before last :
  (forall n a, (size n <= B)%nat -> keeps P (PT n a)) ->
  (size xmlcells <= B)%nat ->
  keeps P (fold_cells PT xmlcells before last).
Proof.
  intros HPT. revert before last.
  induction xmlcells as [|ty nm ct at' inner _ next IH];
    intros before last HB; simpl.
  - apply keeps_ret.
  - apply keeps_bind; [apply HPT; exact HB|].
    intros c. simpl in HB.
    destruct last; [apply keeps_crash|].
    destruct c; [apply keeps_crash|]. apply IH. lia.
Qed.

Lemma keeps_heading_children B children g :
  (forall n a, (size n <= B)%nat -> keeps P (PT n a)) ->
  (size children <= B)%nat ->
  keeps P (heading_children PT children g).
Proof.
  intros HPT. revert g.
  induction children as [|ty nm ct at' xmlcells _ next IH]; intros g HB;
    simpl.
  - apply keeps_ret.
  - simpl in HB. apply keeps_bind.
    + destruct (str_is nm "editor"); [keeps_tac HPT|].
      destruct (str_is nm "fold"); [|apply keeps_ret].
      destruct xmlcells as [|ty2 nm2 ct2 at2 ch2 xmlnext]; [apply keeps_ret|].
      apply keeps_bind; [apply HPT; lia|intros first].
      apply keeps_bind; [|intros; apply keeps_ret].
      apply (keeps_fold_cells B); [exact HPT|simpl in HB; lia].
    + intros g2. apply IH. lia.
Qed.

Lemma keeps_ParseCellTag node :
  (forall n a, (size n <= size (GetChildren node))%nat -> keeps P (PT n a)) ->
  keeps P (ParseCellTag PT node).
Proof.
  intros HPT. unfold ParseCellTag.
  destruct node as [|ty nm ct at' children nx]; [apply keeps_crash|].
  simpl in HPT.
  assert (Hh : forall t hide,
             keeps P (g <- heading_children PT children Group.empty ;;
                      ret [Group.build t hide g])).
  { intros t hide. apply keeps_bind; [|intros; apply keeps_ret].
    apply (keeps_heading_children (size children)); [exact HPT|lia]. }
  cbv zeta.
  repeat match goal with
         | |- keeps _ (if ?b then _ else _) => destruct b
         | |- keeps _ (match (if ?b then _ else _) with _ => _ end) =>
             destruct b
         end;
    try apply Hh; try apply keeps_ret.
  - apply keeps_bind; [|intros; apply keeps_ret].
    apply (keeps_code_children (size children)); [exact HPT|lia].
  - apply keeps_bind; [|intros; apply keeps_ret].
    apply (keeps_image_children (size children)); [exact HPT|lia].
  - keeps_tac HPT.
Qed.

Lemma keeps_ParseNode node :
  (forall n a, (size n <= size (GetChildren node))%nat -> keeps P (PT n a)) ->
  keeps P (ParseNode P PT node).
Proof.
  intros HPT.
  pose proof (fun c => keeps_composite c node HPT) as Hc.
  pose proof (keeps_unary node HPT) as (Hq & Ha & Hcj & Hp).
  pose proof (keeps_ParseTableTag node HPT) as Htb.
  pose proof (keeps_ParseCellTag node HPT) as Hcell.
  pose proof (Hc fraction) as Hf. pose proof (Hc exponent) as He.
  pose proof (Hc subscript) as Hi. pose proof (Hc subsup) as Hie.
  pose proof (Hc function_application) as Hfn. pose proof (Hc limit) as Hlm.
  pose proof (Hc sum) as Hsm. pose proof (Hc integral) as Hin.
  pose proof (Hc at_point) as Hat. pose proof (Hc differential) as Hd.
  simpl in Hf, He, Hi, Hie, Hfn, Hlm, Hsm, Hin, Hat, Hd. clear Hc.
  unfold ParseNode.
  destruct node as [|ty nm ct at' children nx]; [apply keeps_crash|].
  simpl in HPT.
  destruct ty; try apply keeps_ParseText.
  repeat match goal with
         | |- keeps _ (if ?b then _ else _) => destruct b
         end; try assumption;
    try (apply keeps_ParseText); try (apply keeps_ParseCharCode);
    try (apply keeps_ParseEditorTag); try (apply keeps_ret);
    try (apply HPT; lia).
  all: try (apply keeps_bind; [apply keeps_ParseText|intros; apply keeps_ret]).
  all: try (apply keeps_bind; [apply HPT; lia|intros; apply keeps_ret]).
  all: try (apply keeps_under_highlight;
            [apply HPT; lia|intros; apply keeps_ret]).
  all: try (destruct children; [apply keeps_crash|];
            apply keeps_bind; [apply keeps_get|intros; apply keeps_ret]).
  all: try (destruct children; [apply keeps_ret|apply HPT; lia]).
Qed.

End Keeps.

Lemma keeps_bookkeeping P node l : keeps P (bookkeeping P node l).
Proof.
  unfold bookkeeping. apply keeps_bind.
  - destruct (cell l); [destruct (warning l)| |];
      try (destruct (tmp l); apply keeps_ret); try apply keeps_ret.
    apply keeps_bind; [apply keeps_warning|intros; apply keeps_ret].
  - intros l'. destruct (FindAttribute node "altCopy"); [|apply keeps_ret].
    unfold Loop.SetAltCopyText.
    destruct (cell l'); try apply keeps_ret. apply keeps_crash.
Qed.

Lemma keeps_sibling_loop P dispatch node all l :
  (forall n, sibling_of n node -> keeps P (dispatch n)) ->
  keeps P (sibling_loop P dispatch node all l).
Proof.
  revert l. induction node as [|ty nm ct at' ch _ next IH]; intros l Hd.
  - apply keeps_ret.
  - simpl. apply keeps_bind; [apply Hd; left; reflexivity|].
    intros p. destruct all; simpl.
    + apply keeps_bind; [apply keeps_bookkeeping|].
      intros l'. apply IH. intros n Hn. apply Hd. right. exact Hn.
    + apply keeps_ret.
Qed.

Lemma sibling_size n node : sibling_of n node -> (size n <= size node)%nat.
Proof.
  induction node as [|ty nm ct at' ch _ next IH]; simpl; [tauto|].
  intros [-> | H]; [simpl; lia|]. apply IH in H. lia.
Qed.

(** [ParseTag] keeps the context: by induction on the size of the forest,
    the handlers calling back only on nodes below the one they handle. *)
Lemma ParseTag_keeps P node all : keeps P (ParseTag P node all).
Proof.
  remember (size node) as k eqn:Hk.
  assert (Hle : (size node <= k)%nat) by lia. clear Hk.
  revert node all Hle.
  induction k as [|k IH]; intros node all Hle.
  - destruct node; [|simpl in Hle; lia]. apply keeps_ret.
  - rewrite ParseTag_unfold. apply keeps_sibling_loop.
    intros n Hn. apply sibling_size in Hn.
    apply keeps_ParseNode. intros n' a Hn'. apply IH.
    destruct n as [|ty nm ct at' ch nx]; simpl in *; lia.
Qed.

(** X1. Whenever [ParseTag] returns, the style context of the parser is as
    it was before the call: [m_ParserStyle], [m_FracStyle] (set to
    [FC_DIFF] inside a differential), [m_highlight] (set inside a
    highlight wrapper) and [m_fileSystem] are restored.  The message boxes
    shown before are still there, and every box added by the call is the
    unknown-tag warning. *)
Theorem ParseTag_keeps_context :
  forall P node all s r s',
    ParseTag P node all s = (Ok r, s') -> context_kept P s s'.
Proof. intros P node all s r s' H. exact (ParseTag_keeps P node all s r s' H). Qed.

(** X1 on a line with a highlighted variable and a differential, parsed
    in the middle of highlighted label output. *)
Lemma ParseTag_keeps_context_document :
  exists r s',
    ParseTag (Samples.platform None None)
             (GetChildren MoreSamples.document) true MoreSamples.busy_parser
      = (Ok r, s')
    /\ m_ParserStyle s' = MC_TYPE_LABEL
    /\ m_FracStyle s' = FC_DIFF
    /\ m_highlight s' = true.
Proof.
  destruct (ParseTag (Samples.platform None None)
              (GetChildren MoreSamples.document) true MoreSamples.busy_parser)
    as [[r|] s'] eqn:E; [|vm_compute in E; discriminate].
  exists r, s'. split; [reflexivity|].
  destruct (ParseTag_keeps_context (Samples.platform None None)
              (GetChildren MoreSamples.document) true MoreSamples.busy_parser
              r s' E) as (A & B & C & _).
  repeat split; assumption.
Defined.

(** ** ParseLine *)

(** The replaced string has no control character. *)
Lemma without_controls_clean s :
  Forall (fun c => is_cntrl c = false) (without_controls s).
Proof.
  unfold without_controls. apply Forall_forall. intros c Hc.
  apply in_map_iff in Hc as (x & <- & _).
  destruct (is_cntrl x) eqn:E; [reflexivity|exact E].
Qed.

Lemma without_controls_idempotent s :
  without_controls (without_controls s) = without_controls s.
Proof.
  unfold without_controls. rewrite map_map. apply map_ext. intros c.
  destruct (is_cntrl c) eqn:E; [reflexivity|]. rewrite E. reflexivity.
Qed.

(** X4. [ParseLine] replaces every control character of its input by
    U+FFFD before anything else: the length test and the XML reader see
    the replaced string only.  It has the length of the input and no
    control character (line feeds and tabs included), and a reader that
    replaces the control characters once more makes no difference. *)
Theorem ParseLine_reader_sees_no_control :
  forall cfg tr load s style st,
    ParseLine (mkPlatform cfg tr load) s style st
      = ParseLine (mkPlatform cfg tr (fun x => load (without_controls x)))
                  s style st
    /\ Forall (fun c => is_cntrl c = false) (without_controls s)
    /\ Length (without_controls s) = Length s.
Proof.
  intros cfg tr load s style st. split; [|split].
  - unfold ParseLine. fold (without_controls s).
    unfold bind, modify. cbn [LoadRoot config].
    change (length_cutoff (mkPlatform cfg tr load))
      with (length_cutoff
              (mkPlatform cfg tr (fun x => load (without_controls x)))).
    destruct ((Length (without_controls s)
               <? to_size_t
                    (length_cutoff
                       (mkPlatform cfg tr
                          (fun x => load (without_controls x)))))
              || assigned_zero); [|reflexivity].
    rewrite without_controls_idempotent.
    destruct (load (without_controls s)); reflexivity.
  - apply without_controls_clean.
  - apply cntrl_replacement_length.
Qed.

(** [ParseLine] either parses or gives the placeholder, by the length of
    the input alone. *)
Lemma ParseLine_branches P s style st :
  ParseLine P s style st
    = if Length s <? to_size_t (length_cutoff P)
      then parse_document P s style st
      else (Ok [too_long_cell P],
            State.set_highlight false
              (State.set_FracStyle FC_NORMAL
                 (State.set_ParserStyle style st))).
Proof.
  unfold ParseLine, parse_document. fold (without_controls s).
  unfold without_controls at 1. rewrite cntrl_replacement_length.
  unfold assigned_zero. simpl negb. rewrite orb_false_r.
  destruct (Length s <? to_size_t (length_cutoff P)); reflexivity.
Qed.

(** X2. Whenever [ParseLine] returns, the parser has the style it was
    given, the normal fraction style and no highlight, whatever context
    it was left in before; the archive is as before and the boxes added
    are unknown-tag warnings. *)
Theorem ParseLine_leaves_context P s style st r st' :
  ParseLine P s style st = (Ok r, st') ->
  m_ParserStyle st' = style
  /\ m_FracStyle st' = FC_NORMAL
  /\ m_highlight st' = false
  /\ m_fileSystem st' = m_fileSystem st
  /\ exists warnings,
      messageBoxes st' = warnings ++ messageBoxes st
      /\ Forall (fun msg => msg = translate P Loop.unknown_tag_message)
                warnings.
Proof.
  rewrite ParseLine_branches.
  destruct (Length s <? to_size_t (length_cutoff P)).
  - unfold parse_document, bind, modify.
    set (st0 := State.set_highlight false
                  (State.set_FracStyle FC_NORMAL
                     (State.set_ParserStyle style st))).
    intros H.
    assert (K : context_kept P st0 st').
    { destruct (LoadRoot P (without_controls s)) as [|ty nm ct a ch nx].
      - injection H as _ <-. apply context_kept_refl.
      - exact (ParseTag_keeps P ch true st0 r st' H). }
    destruct K as (A & B & C & D & w & E & F). simpl in *.
    repeat split; try assumption. exists w. split; assumption.
  - intros H. injection H as _ <-. simpl.
    repeat split. exists []. split; [reflexivity|constructor].
Qed.

(** X2 on a document with an unknown tag, read by a parser left in
    highlighted label output. *)
Lemma ParseLine_leaves_context_document :
  exists r st',
    ParseLine (MoreSamples.reading MoreSamples.document None) (wxT "<doc/>")
              MC_TYPE_INPUT MoreSamples.busy_parser = (Ok r, st')
    /\ m_ParserStyle st' = MC_TYPE_INPUT
    /\ m_FracStyle st' = FC_NORMAL
    /\ m_highlight st' = false
    /\ List.length (messageBoxes st') = 1%nat.
Proof.
  destruct (ParseLine (MoreSamples.reading MoreSamples.document None)
              (wxT "<doc/>") MC_TYPE_INPUT MoreSamples.busy_parser)
    as [[r|] st'] eqn:E; [|vm_compute in E; discriminate].
  exists r, st'. split; [reflexivity|].
  pose proof (ParseLine_leaves_context
                (MoreSamples.reading MoreSamples.document None) (wxT "<doc/>")
                MC_TYPE_INPUT MoreSamples.busy_parser r st' E)
    as (A & B & C & _).
  repeat split; try assumption.
  vm_compute in E. injection E as _ <-. reflexivity.
Defined.

(** X3. The [switch] on the selector has no default: a configured value
    outside 0..3 stays in [showLength] as the cutoff.  A value above 3 is
    the cutoff in characters; a negative value converts to a huge
    [size_t] in the comparison, so every input is parsed. *)
Theorem ParseLine_selector_out_of_range digits tr load v s style st :
  let P := mkPlatform (mkConfig digits (Some v)) tr load in
  - 2 ^ 31 <= v <= INT_MAX ->
  (v < 0 \/ 3 < v) ->
  Length s < 2 ^ 63 ->
  length_cutoff P = v
  /\ (v < 0 -> ParseLine P s style st = parse_document P s style st)
  /\ (3 < v -> Length s < v ->
      ParseLine P s style st = parse_document P s style st)
  /\ (3 < v -> v <= Length s ->
      fst (ParseLine P s style st) = Ok [too_long_cell P]).
Proof.
  intros P Hv Hout Hlen.
  assert (Hc : length_cutoff P = v).
  { unfold length_cutoff, Read. cbn [P config showLength].
    rewrite to_int_small by exact Hv.
    destruct (Z.eqb_spec v 0); [lia|]. destruct (Z.eqb_spec v 1); [lia|].
    destruct (Z.eqb_spec v 2); [lia|]. destruct (Z.eqb_spec v 3); [lia|].
    reflexivity. }
  split; [exact Hc|].
  rewrite ParseLine_branches, Hc. unfold to_size_t, INT_MAX in *.
  assert (0 <= Length s) by (unfold Length; lia).
  repeat split.
  - intros Hneg.
    assert (Hm : v mod 2 ^ 64 = v + 2 ^ 64).
    { symmetry. apply Z.mod_unique with (q := -1); lia. }
    rewrite Hm. destruct (Z.ltb_spec (Length s) (v + 2 ^ 64)); [reflexivity|lia].
  - intros Hpos Hlt. rewrite Z.mod_small by lia.
    destruct (Z.ltb_spec (Length s) v); [reflexivity|lia].
  - intros Hpos Hge. rewrite Z.mod_small by lia.
    destruct (Z.ltb_spec (Length s) v); [lia|reflexivity].
Qed.

(** X3 with selector -1: the 50,001 zeros are parsed. *)
Lemma ParseLine_selector_out_of_range_minus_one :
  - 2 ^ 31 <= -1 <= INT_MAX /\ (-1 < 0 \/ 3 < -1)
  /\ Length Samples.zeros < 2 ^ 63
  /\ ParseLine (Samples.platform None (Some (-1))) Samples.zeros
               MC_TYPE_DEFAULT Samples.fresh_parser
     = parse_document (Samples.platform None (Some (-1))) Samples.zeros
                      MC_TYPE_DEFAULT Samples.fresh_parser.
Proof.
  assert (H1 : - 2 ^ 31 <= -1 <= INT_MAX) by (unfold INT_MAX; lia).
  assert (H2 : -1 < 0 \/ 3 < -1) by (left; lia).
  assert (H3 : Length Samples.zeros < 2 ^ 63) by (vm_compute; reflexivity).
  split; [exact H1|]. split; [exact H2|]. split; [exact H3|].
  destruct (ParseLine_selector_out_of_range None (fun msg => msg)
              (fun _ => NullNode) (-1) Samples.zeros MC_TYPE_DEFAULT
              Samples.fresh_parser H1 H2 H3) as (_ & Hneg & _).
  apply Hneg. lia.
Defined.

(** ** The sibling loop on nodes that each yield one cell *)


(** A state is like itself. *)
Lemma same_but_digits_refl s : same_but_digits s s.
Proof. repeat split. Qed.




(** ** ParseEditorTag *)

(** With text collected already, every further line adds a line feed and
    its content. *)
Lemma editor_lines_from_text children c text :
  editor_lines children (c :: text)
    = (c :: text) ++ List.concat (map (cons 10%N) (line_contents children)).
Proof.
  revert c text. induction children as [|ty nm ct a ch _ next IH];
    intros c text; simpl.
  - rewrite app_nil_r. reflexivity.
  - destruct (str_is nm "line"); [|apply IH].
    simpl. rewrite IH. simpl. f_equal. rewrite <- !app_assoc. reflexivity.
Qed.

(** From the empty text, the lines before the first one with content
    leave no trace. *)
Lemma editor_lines_from_empty children :
  editor_lines children [] = join_lines (drop_empty (line_contents children)).
Proof.
  induction children as [|ty nm ct a ch _ next IH]; simpl; [reflexivity|].
  destruct (str_is nm "line"); [|exact IH].
  simpl. destruct (GetNodeContent (XmlNode ty nm ct a ch next)) as [|c l] eqn:E.
  - simpl. exact IH.
  - simpl. rewrite editor_lines_from_text. reflexivity.
Qed.

(** X6. [ParseEditorTag] never fails and reads the [line] children only:
    the text of the editor cell is the contents of the lines joined by
    line feeds, after the empty lines at the beginning are dropped (a
    line feed is added only when there is text already). *)
Theorem ParseEditorTag_joins_lines node s :
  exists b,
    ParseEditorTag node s
      = (Ok [EditorCell b (join_lines
                             (drop_empty (line_contents (GetChildren node))))],
         s).
Proof.
  unfold ParseEditorTag, ret. rewrite editor_lines_from_empty.
  eexists. reflexivity.
Qed.

(** X6 on an editor with an empty first line and an empty line between
    a and b. *)
Example ParseEditorTag_blank_lines :
  fst (ParseEditorTag MoreSamples.editor_with_blank_lines
                      Samples.fresh_parser)
    = Ok [EditorCell (Cell.SetType MC_TYPE_TEXT Cell.fresh)
                     (wxT "a" ++ [10%N; 10%N] ++ wxT "b")].
Proof. reflexivity. Qed.

(** ** ParseCellTag: block types and empty blocks *)

(** Comparison with a literal, decided. *)
Lemma str_is_false (s : wxString) (lit : string) :
  s <> wxT lit -> str_is s lit = false.
Proof.
  intros H. unfold str_is. destruct (WxString.eqb s (wxT lit)) eqn:E;
    [|reflexivity].
  apply eqb_eq in E. contradiction.
Qed.

Lemma str_is_true (s : wxString) (lit : string) :
  s = wxT lit -> str_is s lit = true.
Proof. intros ->. apply eqb_eq. reflexivity. Qed.

(** X7. A block node whose type is none of code, image, pagebreak, text,
    title, section, subsection and subsubsection yields null: no group
    cell is built, no child is parsed and the parser state is unchanged. *)
Theorem ParseCellTag_unknown_type ParseTag ty nm ct attrs children nx s :
  let node := XmlNode ty nm ct attrs children nx in
  ~ In (GetAttribute node "type" (wxT "text")) (map wxT known_block_types) ->
  ParseCellTag ParseTag node s = (Ok [], s).
Proof.
  intros node Hin. unfold ParseCellTag. fold node.
  set (type := GetAttribute node "type" (wxT "text")) in *.
  assert (H : forall lit, In lit known_block_types -> str_is type lit = false).
  { intros lit Hl. apply str_is_false. intros E. apply Hin. rewrite E.
    apply in_map. exact Hl. }
  unfold known_block_types in H.
  rewrite !H by (simpl; tauto). reflexivity.
Qed.

(** X7 on [<cell type="chapter">], reached through [ParseTag]. *)
Lemma ParseCellTag_unknown_type_chapter :
  ~ In (GetAttribute MoreSamples.chapter_cell "type" (wxT "text"))
       (map wxT known_block_types)
  /\ ParseTag (Samples.platform None None) MoreSamples.chapter_cell false
              Samples.fresh_parser = (Ok [], Samples.fresh_parser).
Proof.
  assert (H : ~ In (GetAttribute MoreSamples.chapter_cell "type" (wxT "text"))
                   (map wxT known_block_types)).
  { vm_compute. intros H.
    repeat (destruct H as [H|H]; [discriminate|]). exact H. }
  split; [exact H|].
  rewrite <- (ParseCellTag_unknown_type
                (ParseTag (Samples.platform None None))
                wxXML_ELEMENT_NODE (wxT "cell") wxEmptyString
                [attr "type" "chapter"] (elem "editor" [] NullNode) NullNode
                Samples.fresh_parser H).
  reflexivity.
Defined.

(** X8. A text block (type "text", or no type attribute) whose children
    parse to no cell makes [ParseCellTag] call [GetValue] on a null
    pointer. *)
Theorem ParseCellTag_text_without_cell ParseTag ty nm ct attrs children nx
        s s1 :
  let node := XmlNode ty nm ct attrs children nx in
  GetAttribute node "type" (wxT "text") = wxT "text" ->
  ParseTag children true s = (Ok [], s1) ->
  ParseCellTag ParseTag node s = (Crash, s1).
Proof.
  intros node Htype Hrun. unfold ParseCellTag. cbv zeta. fold node.
  rewrite Htype.
  change (str_is (wxT "text") "code") with false.
  change (str_is (wxT "text") "image") with false.
  change (str_is (wxT "text") "pagebreak") with false.
  change (str_is (wxT "text") "text") with true.
  cbv iota. unfold node, bind. rewrite Hrun. reflexivity.
Qed.

(** X8 on [<cell type="text"/>]: [ParseTag] on it crashes. *)
Lemma ParseCellTag_text_without_cell_empty :
  GetAttribute MoreSamples.empty_text_cell "type" (wxT "text") = wxT "text"
  /\ ParseTag (Samples.platform None None) NullNode true Samples.fresh_parser
     = (Ok [], Samples.fresh_parser)
  /\ ParseTag (Samples.platform None None) MoreSamples.empty_text_cell true
              Samples.fresh_parser = (Crash, Samples.fresh_parser).
Proof.
  assert (H1 : GetAttribute MoreSamples.empty_text_cell "type" (wxT "text")
               = wxT "text") by reflexivity.
  assert (H2 : ParseTag (Samples.platform None None) NullNode true
                        Samples.fresh_parser = (Ok [], Samples.fresh_parser))
    by reflexivity.
  split; [exact H1|]. split; [exact H2|].
  pose proof (ParseCellTag_text_without_cell
                (ParseTag (Samples.platform None None))
                wxXML_ELEMENT_NODE (wxT "cell") wxEmptyString
                [attr "type" "text"] NullNode NullNode
                Samples.fresh_parser Samples.fresh_parser H1 H2) as H.
  rewrite <- H. reflexivity.
Defined.

(** ** The handlers that flag an exponent *)



(** ** The sum handler and the lower-sum type *)

(** X10. For a sum of type "lsum" the second child has to be there but
    is not parsed: its type, name, content, attributes and children do
    not change the result or the parser state. *)
Theorem lsum_skips_second_child P ty nm ct attrs nx t1 n1 c1 a1 ch1
        t2 n2 c2 a2 ch2 t2' n2' c2' a2' ch2' rest s :
  let node second :=
    XmlNode ty nm ct attrs (XmlNode t1 n1 c1 a1 ch1 second) nx in
  lookup (wxT "type") attrs = Some (wxT "lsum") ->
  ParseSumTag (ParseTag P) (node (XmlNode t2 n2 c2 a2 ch2 rest)) s
    = ParseSumTag (ParseTag P) (node (XmlNode t2' n2' c2' a2' ch2' rest)) s.
Proof.
  intros node Htype. unfold node, ParseSumTag, GetAttribute, FindAttribute.
  cbn [GetAttributes]. rewrite Htype.
  change (str_is (wxT "lsum") "lsum") with true.
  change (str_is (wxT "lsum") "prod") with false.
  cbv iota. reflexivity.
Qed.

(** X10: an upper bound [<n>9</n>] or an unknown tag [<x/>] in second
    place give the same lower sum. *)
Lemma lsum_skips_second_child_sample :
  lookup (wxT "type") [attr "type" "lsum"] = Some (wxT "lsum")
  /\ ParseSumTag (ParseTag (Samples.platform None None)) MoreSamples.lsum
                 Samples.fresh_parser
     = ParseSumTag (ParseTag (Samples.platform None None))
         (elem "sm" [attr "type" "lsum"]
            (elem "v" [] (text (wxT "i")) :>: elem "x" [] NullNode
               :>: elem "v" [] (text (wxT "a"))))
         Samples.fresh_parser.
Proof.
  assert (H : lookup (wxT "type") [attr "type" "lsum"] = Some (wxT "lsum"))
    by reflexivity.
  split; [exact H|].
  exact (lsum_skips_second_child (Samples.platform None None)
           wxXML_ELEMENT_NODE (wxT "sm") wxEmptyString
           [attr "type" "lsum"] NullNode
           wxXML_ELEMENT_NODE (wxT "v") wxEmptyString [] (text (wxT "i"))
           wxXML_ELEMENT_NODE (wxT "n") wxEmptyString [] (text (wxT "9"))
           wxXML_ELEMENT_NODE (wxT "x") wxEmptyString [] NullNode
           (elem "v" [] (text (wxT "a"))) Samples.fresh_parser H).
Defined.

(** ** Text leaves that are not numbers *)

(** After [Replace] the old character is gone. *)
Lemma ReplaceChar_removes old new s : old <> new -> ~ In old (ReplaceChar old new s).
Proof.
  intros Hne Hin. unfold ReplaceChar in Hin.
  apply in_map_iff in Hin as (x & Hx & _).
  destruct (N.eqb_spec x old); congruence.
Qed.

(** X11. A text leaf of any style but the number style is never
    truncated and leaves the parser state alone: the value has the length
    of the content, holds no hyphen-minus (each is shown as U+2212), and
    is the content itself when that has no hyphen-minus. *)
Theorem text_leaf_shows_minus_sign P ty nm content attrs ch nx style s :
  style <> TS_NUMBER ->
  exists b value,
    ParseText P (XmlNode ty nm content attrs ch nx) style s
      = (Ok [TextCell b value], s)
    /\ List.length value = List.length content
    /\ ~ In hyphen_minus value
    /\ (~ In hyphen_minus content -> value = content).
Proof.
  intros Hstyle. destruct content as [|c content].
  - exists Cell.fresh, wxEmptyString. repeat split; auto.
  - exists (Cell.SetHighlight (m_highlight s)
              (Cell.SetStyle style
                 (match style with
                  | TS_ERROR => Cell.SetType MC_TYPE_ERROR Cell.fresh
                  | _ => Cell.SetType (m_ParserStyle s) Cell.fresh
                  end))),
      (ReplaceChar hyphen_minus minus_sign (c :: content)).
    split; [destruct style; try reflexivity; contradiction|].
    split; [apply ReplaceChar_length|].
    split; [apply ReplaceChar_removes; discriminate|].
    apply ReplaceChar_absent.
Qed.

(** X11 on a string of 31 characters with cutoff 10. *)
Lemma text_leaf_shows_minus_sign_string :
  TS_STRING <> TS_NUMBER
  /\ fst (ParseText (Samples.platform (Some 10) None)
                    (text (wxT "a-very-long-string-with-hyphens")) TS_STRING
                    Samples.fresh_parser)
     = Ok [TextCell (Cell.SetStyle TS_STRING Cell.fresh)
                    (ReplaceChar hyphen_minus minus_sign
                       (wxT "a-very-long-string-with-hyphens"))].
Proof.
  assert (H : TS_STRING <> TS_NUMBER) by discriminate.
  split; [exact H|].
  destruct (text_leaf_shows_minus_sign (Samples.platform (Some 10) None)
              wxXML_TEXT_NODE (wxT "text")
              (wxT "a-very-long-string-with-hyphens") [] NullNode NullNode
              TS_STRING Samples.fresh_parser H) as (b & v & Hrun & _).
  unfold text. rewrite Hrun. vm_compute in Hrun. injection Hrun as <- <-.
  reflexivity.
Defined.

(** ** The line wrapper *)

(** X12. The line wrappers [mth] and [line] never yield null when the
    parse of their children returns: the first cell of a chain gets the
    forced line break, and where the children yield no cell a text cell
    with one space stands in (without the forced break). *)
Theorem line_wrapper_never_null P ParseTag tagName ct attrs children nx
        s inner s1 :
  let node := XmlNode wxXML_ELEMENT_NODE tagName ct attrs children nx in
  tagName = wxT "mth" \/ tagName = wxT "line" ->
  ParseTag children true s = (Ok inner, s1) ->
  exists c rest,
    ParseNode P ParseTag node s = (Ok (c :: rest), s1)
    /\ match inner with
       | [] => c = new_TextCell_of (wxT " ") /\ rest = []
       | first :: others =>
           c = on_base (Cell.ForceBreakLine true) first /\ rest = others
       end.
Proof.
  intros node Htag Hrun. subst node.
  assert (E : ParseNode P ParseTag
                (XmlNode wxXML_ELEMENT_NODE tagName ct attrs children nx) s
              = bind (ParseTag children true)
                  (fun tmp =>
                     ret (match tmp with
                          | [] => [new_TextCell_of (wxT " ")]
                          | _ => on_head (Cell.ForceBreakLine true) tmp
                          end)) s).
  { destruct Htag as [-> | ->]; reflexivity. }
  rewrite E. unfold bind. rewrite Hrun. unfold ret.
  destruct inner as [|first others]; eexists; eexists;
    (split; [reflexivity|split; reflexivity]).
Qed.

(** X12 on [<mth><x/></mth>]. *)
Lemma line_wrapper_never_null_empty_line :
  (wxT "mth" = wxT "mth" \/ wxT "mth" = wxT "line")
  /\ Samples.texts
       (fst (ParseTag (Samples.platform None None) MoreSamples.empty_line
                      false Samples.fresh_parser))
     = Some [(wxT " ", wxEmptyString)].
Proof.
  assert (H : wxT "mth" = wxT "mth" \/ wxT "mth" = wxT "line")
    by (left; reflexivity).
  split; [exact H|].
  destruct (line_wrapper_never_null (Samples.platform None None)
              (ParseTag (Samples.platform None None)) (wxT "mth")
              wxEmptyString [] (elem "x" [] NullNode) NullNode
              Samples.fresh_parser [] _ H eq_refl)
    as (c & rest & Hrun & -> & ->).
  unfold MoreSamples.empty_line, elem in *.
  rewrite ParseTag_first_only, Hrun. reflexivity.
Defined.

(** ** The image list of a slide show *)

(** The tokens hold the characters of the string that are no
    semicolon, in order. *)
Lemma tokens_concat str :
  forall cur,
    List.concat (tokens str cur)
      = cur ++ filter (fun c => negb (N.eqb c 59)) str.
Proof.
  induction str as [|c str IH]; intros cur; simpl.
  - destruct cur; simpl; rewrite ?app_nil_r; reflexivity.
  - destruct (N.eqb c 59); simpl.
    + rewrite concat_app, IH. destruct cur; simpl; rewrite ?app_nil_r;
        reflexivity.
    + rewrite IH, <- app_assoc. reflexivity.
Qed.

(** No token is empty or holds a semicolon. *)
Lemma tokens_clean str :
  forall cur,
    ~ In 59%N cur ->
    Forall (fun t => t <> [] /\ ~ In 59%N t) (tokens str cur).
Proof.
  induction str as [|c str IH]; intros cur Hcur; simpl.
  - destruct cur; constructor; [split; [discriminate|exact Hcur]|constructor].
  - destruct (N.eqb_spec c 59).
    + apply Forall_app. split; [|apply IH; intros []].
      destruct cur; constructor; [split; [discriminate|exact Hcur]|constructor].
    + apply IH. intros Hin. apply in_app_or in Hin as [Hin|[Hin|[]]];
        [exact (Hcur Hin)|congruence].
Qed.

(** X13. The image list of a slide show: no file name is empty or
    contains a semicolon, and together the names are the characters of
    the content in order with the semicolons removed; empty entries
    (leading, trailing or doubled semicolons) are dropped. *)
Theorem slide_tokens str :
  Forall (fun t => t <> [] /\ ~ In 59%N t) (tokens str [])
  /\ List.concat (tokens str []) = filter (fun c => negb (N.eqb c 59)) str.
Proof.
  split; [apply tokens_clean; intros []|apply tokens_concat].
Qed.

(** Reading a token without semicolon moves it to the current token. *)
Lemma tokens_token t rest :
  ~ In 59%N t -> forall cur, tokens (t ++ rest) cur = tokens rest (cur ++ t).
Proof.
  induction t as [|c t IH]; intros Ht cur; simpl.
  - rewrite app_nil_r. reflexivity.
  - destruct (N.eqb_spec c 59) as [->|_].
    + exfalso. apply Ht. left. reflexivity.
    + rewrite IH by (intros H; apply Ht; right; exact H).
      rewrite <- app_assoc. reflexivity.
Qed.

(** X14. File names that are not empty and hold no semicolon, joined by
    semicolons, are read back as they were. *)
Theorem slide_tokens_round_trip l :
  Forall (fun t => t <> [] /\ ~ In 59%N t) l ->
  tokens (join_tokens l) [] = l.
Proof.
  induction l as [|t l IH]; intros Hl; [reflexivity|].
  inversion Hl as [|t' l' [Hne Hsemi] Hrest]; subst.
  destruct l as [|u l].
  - simpl join_tokens. rewrite <- (app_nil_r t) at 1.
    rewrite tokens_token by exact Hsemi. simpl.
    destruct t; [contradiction|reflexivity].
  - change (join_tokens (t :: u :: l))
      with (t ++ 59%N :: join_tokens (u :: l)).
    rewrite tokens_token by exact Hsemi. simpl app.
    change (tokens (59%N :: join_tokens (u :: l)) t)
      with (match t with [] => [] | _ => [t] end
              ++ tokens (join_tokens (u :: l)) []).
    rewrite IH by exact Hrest.
    destruct t; [contradiction|reflexivity].
Qed.

(** X14 on [a.png;b.png]. *)
Lemma slide_tokens_round_trip_two :
  Forall (fun t => t <> [] /\ ~ In 59%N t) [wxT "a.png"; wxT "b.png"]
  /\ tokens (wxT "a.png;b.png") [] = [wxT "a.png"; wxT "b.png"].
Proof.
  assert (H : Forall (fun t => t <> [] /\ ~ In 59%N t)
                     [wxT "a.png"; wxT "b.png"]).
  { repeat constructor; try discriminate;
      vm_compute; intros H; repeat (destruct H as [H|H]; [discriminate|]);
      exact H. }
  split; [exact H|].
  exact (slide_tokens_round_trip [wxT "a.png"; wxT "b.png"] H).
Defined.

(** ** Tags without a branch *)

(** X15. An element whose tag has no branch in [ParseTag] is transparent:
    it yields what its children parse to as a sequence ([all] true), as
    the row tag [r] does, and null when it has no children. *)
Theorem unknown_tag_is_transparent P tagName ct attrs children nx s :
  ~ In tagName (map wxT known_tags) ->
  ParseNode P (ParseTag P)
            (XmlNode wxXML_ELEMENT_NODE tagName ct attrs children nx) s
    = ParseTag P children true s.
Proof.
  intros Hin.
  assert (H : forall lit, In lit known_tags -> str_is tagName lit = false).
  { intros lit Hl. apply str_is_false. intros E. apply Hin. rewrite E.
    apply in_map. exact Hl. }
  unfold known_tags in H. unfold ParseNode.
  rewrite !H by (simpl; tauto). simpl orb. cbv iota.
  destruct children; reflexivity.
Qed.

(** X15 on [<mrow><n>1</n><n>2</n></mrow>]. *)
Lemma unknown_tag_is_transparent_sample :
  ~ In (wxT "mrow") (map wxT known_tags)
  /\ ParseTag (Samples.platform None None)
              (elem "mrow" [] (Samples.number "1" :>: Samples.number "2"))
              false Samples.fresh_parser
     = ParseTag (Samples.platform None None)
                (Samples.number "1" :>: Samples.number "2") true
                Samples.fresh_parser.
Proof.
  assert (H : ~ In (wxT "mrow") (map wxT known_tags)).
  { vm_compute. intros H. repeat (destruct H as [H|H]; [discriminate|]).
    exact H. }
  split; [exact H|].
  unfold elem at 1. rewrite ParseTag_first_only.
  exact (unknown_tag_is_transparent (Samples.platform None None) (wxT "mrow")
           wxEmptyString [] (Samples.number "1" :>: Samples.number "2")
           NullNode Samples.fresh_parser H).
Defined.

(** ** Tables *)

(** One cell is added for each node of a row. *)
Lemma table_cells_length ParseTag cells :
  forall acc s r s',
    table_cells ParseTag cells acc s = (Ok r, s') ->
    List.length r = (List.length acc + siblings cells)%nat.
Proof.
  induction cells as [|ty nm ct a ch _ next IH]; intros acc s r s' H.
  - injection H as <- _. simpl. lia.
  - simpl in H. unfold bind in H.
    destruct (ParseTag (XmlNode ty nm ct a ch next) false s) as [[c|] s1];
      [|discriminate].
    apply IH in H. rewrite length_app in H. simpl in *. lia.
Qed.

(** One row is counted for each child of the table. *)
Lemma table_rows_length ParseTag rows :
  forall height acc s h r s',
    table_rows ParseTag rows height acc s = (Ok (h, r), s') ->
    h = height + Z.of_nat (siblings rows)
    /\ List.length r = (List.length acc + table_cell_count rows)%nat.
Proof.
  induction rows as [|ty nm ct a cells _ next IH];
    intros height acc s h r s' H.
  - injection H as <- <- _. simpl. split; lia.
  - simpl in H. unfold bind in H.
    destruct (table_cells ParseTag cells acc s) as [[acc'|] s1] eqn:E;
      [|discriminate].
    apply table_cells_length in E. apply IH in H as [Hh Hr].
    simpl. split; lia.
Qed.

(** X16. The table handler never returns null: when it returns, the
    result is one matrix with a row counted for every child of the node
    and a cell added for every grandchild, whatever their tags are and
    also when a cell node yields no cell. *)
Theorem ParseTableTag_dimensions ParseTag ty nm ct attrs rows nx s r s' :
  ParseTableTag ParseTag (XmlNode ty nm ct attrs rows nx) s = (Ok r, s') ->
  exists b special inference colNames rowNames width cells,
    r = [MatrCell b special inference colNames rowNames
                  (Z.of_nat (siblings rows)) width cells]
    /\ List.length cells = table_cell_count rows.
Proof.
  unfold ParseTableTag, bind, get, ret. intros H.
  destruct (table_rows ParseTag rows 0 [] s) as [[[h cells]|] s1] eqn:E;
    [|discriminate].
  apply table_rows_length in E as [Hh Hc]. simpl in Hh, Hc.
  injection H as <- _. simpl fst. simpl snd. rewrite Hh.
  do 7 eexists. split; [reflexivity|exact Hc].
Qed.

(** X16 on a table of two rows and two columns with an unknown tag in
    the last cell. *)
Lemma ParseTableTag_dimensions_sample :
  exists r s',
    ParseTableTag (ParseTag (Samples.platform None None)) MoreSamples.table
                  Samples.fresh_parser = (Ok r, s')
    /\ exists b special inference colNames rowNames width cells,
        r = [MatrCell b special inference colNames rowNames 2 width cells]
        /\ List.length cells = 4%nat.
Proof.
  destruct (ParseTableTag (ParseTag (Samples.platform None None))
              MoreSamples.table Samples.fresh_parser)
    as [[r|] s'] eqn:E; [|vm_compute in E; discriminate].
  exists r, s'. split; [reflexivity|].
  exact (ParseTableTag_dimensions (ParseTag (Samples.platform None None))
           _ _ _ _ _ _ _ _ _ E).
Defined.

(** ** A sequence of nodes without a cell *)



(** ** Images *)

(** The dispatch of an [img] or [slide] element without a child node. *)
Lemma image_without_child_dispatch P ParseTag tagName ct attrs nx s :
  tagName = wxT "img" \/ tagName = wxT "slide" ->
  ParseNode P ParseTag
            (XmlNode wxXML_ELEMENT_NODE tagName ct attrs NullNode nx) s
    = (Crash, s).
Proof. intros [-> | ->]; reflexivity. Qed.

(** X18. An [img] or [slide] element without a child node makes
    [ParseTag] read the content of a null pointer: the call crashes in
    both modes, whatever attributes the element has and whatever follows
    it, and nothing else has happened to the parser state by then. *)
Theorem image_without_file_name P tagName ct attrs nx all s :
  tagName = wxT "img" \/ tagName = wxT "slide" ->
  ParseTag P (XmlNode wxXML_ELEMENT_NODE tagName ct attrs NullNode nx) all s
    = (Crash, s).
Proof.
  intros Htag. rewrite ParseTag_unfold.
  change (bind (ParseNode P (ParseTag P)
                  (XmlNode wxXML_ELEMENT_NODE tagName ct attrs NullNode nx))
            (fun p =>
               let l := Loop.attach p (Loop.start all) in
               if negb all then ret (Loop.result l)
               else l <- bookkeeping P
                           (XmlNode wxXML_ELEMENT_NODE tagName ct attrs
                                    NullNode nx) l ;;
                    sibling_loop P (ParseNode P (ParseTag P)) nx all l) s
          = (Crash, s)).
  unfold bind. rewrite image_without_child_dispatch by exact Htag.
  reflexivity.
Qed.

(** X18 on [<img/>]. *)
Lemma image_without_file_name_sample :
  (wxT "img" = wxT "img" \/ wxT "img" = wxT "slide")
  /\ ParseTag (Samples.platform None None) (elem "img" [] NullNode) true
              Samples.fresh_parser = (Crash, Samples.fresh_parser).
Proof.
  assert (H : wxT "img" = wxT "img" \/ wxT "img" = wxT "slide")
    by (left; reflexivity).
  split; [exact H|].
  exact (image_without_file_name (Samples.platform None None) (wxT "img")
           wxEmptyString [] NullNode true Samples.fresh_parser H).
Defined.

(** X19. A parser that loads from an archive builds every image cell
    with the archive as source and the file not marked for removal,
    whatever the [del] attribute says. *)
Theorem image_from_archive_is_kept P ParseTag ct attrs
        t1 n1 filename a1 ch1 nx1 nx s :
  m_fileSystem s = true ->
  exists rect,
    ParseNode P ParseTag
      (XmlNode wxXML_ELEMENT_NODE (wxT "img") ct attrs
               (XmlNode t1 n1 filename a1 ch1 nx1) nx) s
      = (Ok [ImgCell Cell.fresh filename false true rect], s).
Proof.
  intros Hfs.
  change (exists rect,
    bind get
      (fun s0 =>
         ret [ImgCell Cell.fresh filename
                (if m_fileSystem s0 then false
                 else negb (str_is (GetAttribute
                        (XmlNode wxXML_ELEMENT_NODE (wxT "img") ct attrs
                           (XmlNode t1 n1 filename a1 ch1 nx1) nx)
                        "del" (wxT "yes")) "no"))
                (m_fileSystem s0)
                (negb (str_is (GetAttribute
                        (XmlNode wxXML_ELEMENT_NODE (wxT "img") ct attrs
                           (XmlNode t1 n1 filename a1 ch1 nx1) nx)
                        "rect" (wxT "true")) "false"))]) s
      = (Ok [ImgCell Cell.fresh filename false true rect], s)).
  unfold bind, get, ret. rewrite Hfs. eexists. reflexivity.
Qed.

(** X19 on [<img>plot.png</img>]. *)
Lemma image_from_archive_is_kept_sample :
  m_fileSystem MoreSamples.archive_parser = true
  /\ fst (ParseTag (Samples.platform None None) MoreSamples.image false
                   MoreSamples.archive_parser)
     = Ok [ImgCell Cell.fresh (wxT "plot.png") false true true].
Proof.
  assert (H : m_fileSystem MoreSamples.archive_parser = true) by reflexivity.
  split; [exact H|].
  destruct (image_from_archive_is_kept (Samples.platform None None)
              (ParseTag (Samples.platform None None)) wxEmptyString []
              wxXML_TEXT_NODE (wxT "text") (wxT "plot.png") [] NullNode
              NullNode NullNode MoreSamples.archive_parser H)
    as (rect & Hrun).
  unfold MoreSamples.image, elem, text in *.
  rewrite ParseTag_first_only, Hrun. vm_compute in Hrun.
  injection Hrun as <-. reflexivity.
Defined.

(** ** Folded cells and image blocks *)

(** The loop under a [fold] child over nodes that each yield one cell. *)
Lemma fold_cells_one_cell_each ParseTag (f : wxXmlNode -> MathCell) s :
  forall xmlcells before last s1,
    (forall n, sibling_of n xmlcells ->
               yields_cell (fun n => ParseTag n false) s n (f n)) ->
    same_but_digits s s1 ->
    exists s2,
      fold_cells ParseTag xmlcells before [last] s1
        = (Ok (before ++ last :: map f (nodes xmlcells)), s2)
      /\ same_but_digits s s2.
Proof.
  induction xmlcells as [|ty nm ct a ch _ next IH];
    intros before last s1 Hd Hs1.
  - exists s1. split; [reflexivity|exact Hs1].
  - destruct (Hd _ (or_introl eq_refl) s1 Hs1) as (s2 & Hrun & Hs2).
    simpl fold_cells. unfold bind. rewrite Hrun.
    destruct (IH (before ++ [last])
                 (f (XmlNode ty nm ct a ch next)) s2) as (s3 & Hrest & Hs3);
      [intros n Hn; apply Hd; right; exact Hn|exact Hs2|].
    exists s3. split; [|exact Hs3].
    rewrite Hrest. simpl. rewrite <- app_assoc. reflexivity.
Qed.

(** X20. A section block with an editor child and a fold child: when
    every folded node yields exactly one cell, the folded subtree of the
    block holds these cells in document order, one per node; the output
    chain is empty. *)
Theorem fold_keeps_one_cell_per_node ParseTag (f : wxXmlNode -> MathCell)
        ty nm ct attrs te ce ae che tf cf af
        t1 n1 c1 a1 ch1 nx1 nx s :
  let xmlcells := XmlNode t1 n1 c1 a1 ch1 nx1 in
  let fold := XmlNode tf (wxT "fold") cf af xmlcells NullNode in
  let editor := XmlNode te (wxT "editor") ce ae che fold in
  let node := XmlNode ty nm ct attrs editor nx in
  GetAttribute node "type" (wxT "text") = wxT "section" ->
  (forall n, sibling_of n xmlcells ->
             yields_cell (fun n => ParseTag n false) s n (f n)) ->
  exists text hide s',
    ParseCellTag ParseTag node s
      = (Ok [GroupCell Cell.fresh GC_TYPE_SECTION text []
                       (map f (nodes xmlcells)) hide], s')
    /\ same_but_digits s s'.
Proof.
  intros xmlcells fold editor node Htype Hd.
  unfold ParseCellTag. cbv zeta. fold node. rewrite Htype.
  change (str_is (wxT "section") "code") with false.
  change (str_is (wxT "section") "image") with false.
  change (str_is (wxT "section") "pagebreak") with false.
  change (str_is (wxT "section") "text") with false.
  change (str_is (wxT "section") "title") with false.
  change (str_is (wxT "section") "section") with true.
  cbv iota. unfold node at 1. cbv iota.
  destruct (Hd _ (or_introl eq_refl) s (same_but_digits_refl s))
    as (s1 & Hfirst & Hs1).
  destruct (fold_cells_one_cell_each ParseTag f s nx1 []
              (f xmlcells) s1) as (s2 & Hrest & Hs2);
    [intros n Hn; apply Hd; right; exact Hn|exact Hs1|].
  exists (editor_lines che wxEmptyString),
    (str_is (GetAttribute node "hide" (wxT "false")) "true"), s2.
  split; [|exact Hs2].
  unfold editor, fold. simpl heading_children.
  change (str_is (wxT "editor") "editor") with true.
  change (str_is (wxT "fold") "editor") with false.
  change (str_is (wxT "fold") "fold") with true.
  cbv iota. unfold bind, ParseEditorTag, GetValueOf, ret.
  cbv beta in Hfirst. fold xmlcells in Hfirst |- *.
  rewrite Hfirst, Hrest. reflexivity.
Qed.

(** X20 on a section with two folded page breaks. *)
Lemma fold_keeps_one_cell_per_node_sample :
  GetAttribute MoreSamples.folded_section "type" (wxT "text")
    = wxT "section"
  /\ exists b text hide,
      fst (ParseTag (Samples.platform None None) MoreSamples.folded_section
                    false Samples.fresh_parser)
        = Ok [GroupCell b GC_TYPE_SECTION text []
                [Group.build GC_TYPE_PAGEBREAK false Group.empty;
                 Group.build GC_TYPE_PAGEBREAK true Group.empty] hide].
Proof.
  assert (H : GetAttribute MoreSamples.folded_section "type" (wxT "text")
              = wxT "section") by reflexivity.
  split; [exact H|].
  destruct (fold_keeps_one_cell_per_node
              (ParseTag (Samples.platform None None)) MoreSamples.block_of
              wxXML_ELEMENT_NODE (wxT "cell") wxEmptyString
              [attr "type" "section"]
              wxXML_ELEMENT_NODE wxEmptyString [attr "type" "section"]
              NullNode
              wxXML_ELEMENT_NODE wxEmptyString []
              wxXML_ELEMENT_NODE (wxT "cell") wxEmptyString
              [attr "type" "pagebreak"] NullNode
              (elem "cell" [attr "type" "pagebreak"; attr "hide" "true"]
                    NullNode)
              NullNode Samples.fresh_parser H)
    as (text & hide & s' & Hrun & _).
  { intros n Hn [ps fs hl dd fsys mb] (A & B & C & D & E).
    simpl in A, B, C, D, E. subst ps fs hl fsys mb. simpl in Hn.
    destruct Hn as [-> | [-> | []]];
      vm_compute; eexists; (split; [reflexivity|repeat split]). }
  exists Cell.fresh, text, hide.
  apply (f_equal fst) in Hrun. simpl fst in Hrun at 2.
  refine (eq_trans _ (eq_trans Hrun _)); reflexivity.
Defined.



